(** * DeHashed API client: request execution, payload construction and
      CSV flattening

    A shallow embedding of [dehashed_api.py].  Python values that travel
    through the client (request payloads, decoded JSON responses, entries of
    a search result) are terms of [pyval]; a Python [dict] is an association
    list in insertion order; the HTTP session is a function from the request
    sent to the reply received, and every call is recorded in a log that is
    threaded through the client's methods. *)

From Stdlib Require Import Ascii String.
From stdpp Require Import gmap strings list sorting pretty.

#[local] Set Warnings "-register-all".

Local Open Scope string_scope.
Local Open Scope Z_scope.

(** ** Python values *)

(** The values [json.loads] produces and [json.dumps] accepts.  A [str] is a
    sequence of code points below 256, one [ascii] each, so that comparison
    of strings is comparison of code points, as in Python.  A [float] is kept
    as the text [float.__repr__] gives for it ([1.5], [1e+22], [inf], [nan]):
    the client never computes with a float, it only prints it. *)
Inductive pyval : Type :=
  | PyNone
  | PyBool (b : bool)
  | PyInt (n : Z)
  | PyFloat (repr : string)
  | PyStr (s : string)
  | PyList (l : list pyval)
  | PyDict (d : list (string * pyval)).

(** A [dict] keeps its items in insertion order. *)
Abbreviation dict := (list (string * pyval)).

(** [d.get(k)] as an option: the first item under [k]. *)
Fixpoint dict_lookup (k : string) (d : dict) : option pyval :=
  match d with
  | [] => None
  | (k', v) :: d' => if decide (k = k') then Some v else dict_lookup k d'
  end.

(** [k in d]. *)
Definition dict_mem (k : string) (d : dict) : bool :=
  bool_decide (is_Some (dict_lookup k d)).

(** [d.get(k)]: [None] when the key is missing. *)
Definition dict_get (k : string) (d : dict) : pyval :=
  default PyNone (dict_lookup k d).

(** [d[k] = v]: overwrite in place, or append a new item. *)
Fixpoint dict_set (k : string) (v : pyval) (d : dict) : dict :=
  match d with
  | [] => [(k, v)]
  | (k', v') :: d' =>
      if decide (k = k') then (k, v) :: d' else (k', v') :: dict_set k v d'
  end.

(** [list(d.keys())]. *)
Definition dict_keys (d : dict) : list string := d.*1.

(** Truth value of an object, as [if x:] and [not x] test it. *)
Definition truthy (v : pyval) : bool :=
  match v with
  | PyNone => false
  | PyBool b => b
  | PyInt n => negb (n =? 0)
  | PyFloat r => negb (bool_decide (r = "0.0" ∨ r = "-0.0"))
  | PyStr s => negb (bool_decide (s = EmptyString))
  | PyList l => negb (bool_decide (l = []))
  | PyDict d => negb (bool_decide (d = []))
  end.

(** ** Printing: [str], [repr] and [json.dumps] *)

Definition dquote : ascii := ascii_of_N 34.
Definition squote : ascii := ascii_of_N 39.
Definition backslash : ascii := ascii_of_N 92.

Definition char (c : ascii) : string := String c EmptyString.

Definition hex_digit (n : N) : ascii :=
  if (n <? 10)%N then ascii_of_N (48 + n) else ascii_of_N (87 + n).

(** Two lowercase hexadecimal digits of a code point below 256. *)
Definition hex2 (n : N) : string :=
  String (hex_digit (n / 16)) (char (hex_digit (n mod 16))).

Fixpoint string_mem (c : ascii) (s : string) : bool :=
  match s with
  | EmptyString => false
  | String c' s' => bool_decide (c = c') || string_mem c s'
  end.

Fixpoint string_flat_map (f : ascii → string) (s : string) : string :=
  match s with
  | EmptyString => EmptyString
  | String c s' => f c +:+ string_flat_map f s'
  end.

(** [str.isprintable] on one code point below 256: the C1 controls, the
    no-break space and the soft hyphen are not printable. *)
Definition printable (n : N) : bool :=
  ((32 <=? n) && (n <? 127) || (161 <=? n) && negb (n =? 173))%N.

Definition repr_char (quote c : ascii) : string :=
  let n := N_of_ascii c in
  if bool_decide (c = quote) || bool_decide (c = backslash)
  then String backslash (char c)
  else if (n =? 9)%N then "\t"
  else if (n =? 10)%N then "\n"
  else if (n =? 13)%N then "\r"
  else if printable n then char c
  else "\x" +:+ hex2 n.

(** [repr] of a [str]: single quotes, unless the text has a single quote and
    no double quote. *)
Definition repr_str (s : string) : string :=
  let quote :=
    if string_mem squote s && negb (string_mem dquote s) then dquote
    else squote in
  char quote +:+ string_flat_map (repr_char quote) s +:+ char quote.

(** [json.dumps] of a [str] with [ensure_ascii=True]: everything outside
    the range from space to tilde is escaped. *)
Definition json_char (c : ascii) : string :=
  let n := N_of_ascii c in
  if (n =? 34)%N then String backslash (char dquote)
  else if (n =? 92)%N then "\\"
  else if (n =? 10)%N then "\n"
  else if (n =? 13)%N then "\r"
  else if (n =? 9)%N then "\t"
  else if (n =? 12)%N then "\f"
  else if (n =? 8)%N then "\b"
  else if ((32 <=? n) && (n <=? 126))%N then char c
  else "\u00" +:+ hex2 n.

Definition json_str (s : string) : string :=
  char dquote +:+ string_flat_map json_char s +:+ char dquote.

Definition json_float (r : string) : string :=
  if bool_decide (r = "nan") then "NaN"
  else if bool_decide (r = "inf") then "Infinity"
  else if bool_decide (r = "-inf") then "-Infinity"
  else r.

(** [repr(v)]. *)
Fixpoint py_repr (v : pyval) : string :=
  match v with
  | PyNone => "None"
  | PyBool b => if b then "True" else "False"
  | PyInt n => pretty n
  | PyFloat r => r
  | PyStr s => repr_str s
  | PyList l => "[" +:+ String.concat ", " (map py_repr l) +:+ "]"
  | PyDict d =>
      "{" +:+ String.concat ", "
                (map (λ kv, let '(k, x) := kv in
                            repr_str k +:+ ": " +:+ py_repr x) d) +:+ "}"
  end.

(** [str(v)], which is also what an f-string field [{v}] prints. *)
Definition py_str (v : pyval) : string :=
  match v with
  | PyStr s => s
  | _ => py_repr v
  end.

(** [json.dumps(v)] with the default separators. *)
Fixpoint json_dumps (v : pyval) : string :=
  match v with
  | PyNone => "null"
  | PyBool b => if b then "true" else "false"
  | PyInt n => pretty n
  | PyFloat r => json_float r
  | PyStr s => json_str s
  | PyList l => "[" +:+ String.concat ", " (map json_dumps l) +:+ "]"
  | PyDict d =>
      "{" +:+ String.concat ", "
                (map (λ kv, let '(k, x) := kv in
                            json_str k +:+ ": " +:+ json_dumps x) d) +:+ "}"
  end.

(** ** Exceptions and the call log *)

(** What a method of the client can raise: the client's one error class with
    its message, or a built-in error of the interpreter when a value has not
    the shape the code takes for granted. *)
Inductive exn : Type :=
  | DeHashedAPIError (msg : string)
  | AttributeError
  | TypeError
  | ValueError
  | RecursionError.

Inductive result (A : Type) : Type :=
  | Return (a : A)
  | Raise (e : exn).
Arguments Return {A} a.
Arguments Raise {A} e.

#[global] Instance result_ret : MRet result := λ A a, Return a.
#[global] Instance result_bind : MBind result := λ A B f r,
  match r with
  | Return a => f a
  | Raise e => Raise e
  end.

(** One call of [session.post]. *)
Record request : Type := Request {
  req_url : string;
  req_headers : list (string * string);
  req_json : pyval;
  req_timeout : Z
}.

(** A method runs against the log of the calls sent so far, and leaves the
    log it has extended. *)
Definition M (A : Type) : Type := list request → result A * list request.

#[global] Instance M_ret : MRet M := λ A a log, (Return a, log).
#[global] Instance M_bind : MBind M := λ A B f m log,
  match m log with
  | (Return a, log') => f a log'
  | (Raise e, log') => (Raise e, log')
  end.

Definition raise {A} (e : exn) : M A := λ log, (Raise e, log).

(** [try: m except Exception: h] *)
Definition try_except {A} (m : M A) (h : exn → M A) : M A := λ log,
  match m log with
  | (Return a, log') => (Return a, log')
  | (Raise e, log') => h e log'
  end.

(** ** The [requests] library, as far as the client uses it *)

(** The outcome of [response.json()]: the decoded body; or the text of the
    [JSONDecodeError] of the decoder, which requests raises again as its own
    [JSONDecodeError] (a [RequestException] since requests 2.27); or another
    exception of the decoder, which requests lets pass as it is:
    [RecursionError] on a body nested too deep, [ValueError] on an integer
    literal beyond the digit limit. *)
Inductive json_result : Type :=
  | Decoded (v : pyval)
  | Undecodable (msg : string)
  | Crashed (e : exn).

Record Response : Type := {
  status_code : Z;
  reason : string;
  url : string;
  text : string;
  json : json_result
}.

(** What [session.post] does: it returns the final response, or raises a
    [RequestException] that is no [HTTPError] ([ConnectionError], [Timeout],
    ...) with the text [str(e)] shows. *)
Inductive reply : Type :=
  | Responded (r : Response)
  | NoResponse (msg : string).

(** What the [try] of [_make_request] can raise: an [HTTPError], another
    [RequestException], or an exception that is no [RequestException]. *)
Inductive requests_exn : Type :=
  | HTTPError (msg : string) (response : Response)
  | RequestException (msg : string)
  | Other (e : exn).

(** [response.raise_for_status()] *)
Definition raise_for_status (r : Response) : option requests_exn :=
  if (400 <=? status_code r) && (status_code r <? 500) then
    Some (HTTPError (pretty (status_code r) +:+ " Client Error: " +:+ reason r
                       +:+ " for url: " +:+ url r) r)
  else if (500 <=? status_code r) && (status_code r <? 600) then
    Some (HTTPError (pretty (status_code r) +:+ " Server Error: " +:+ reason r
                       +:+ " for url: " +:+ url r) r)
  else None.

(** ** The client *)

Record DeHashedConfig : Type := {
  api_key : string;
  base_url : string;
  timeout : Z
}.

Definition DeHashedConfig_new (api_key : string) : DeHashedConfig :=
  {| api_key := api_key; base_url := "https://api.dehashed.com/v2"; timeout := 30 |}.

Record DeHashedClient : Type := {
  config : DeHashedConfig;
  session_headers : list (string * string)
}.

Section client.

(** The process environment, [os.environ.get]. *)
Variable environ : string → option string.

(** The remote service behind [session.post]: the reply to each request. *)
Variable session_post : request → reply.

(** [DeHashedClient.__init__].  [api_key = None] is the default of the
    signature. *)
Definition DeHashedClient_init (key : option string) : M DeHashedClient :=
  key ←
    match key with
    | Some k => mret k
    | None =>
        match environ "DEHASHED_API_KEY" with
        | Some k => mret k
        | None =>
            raise (DeHashedAPIError
              "API key must be provided or set in DEHASHED_API_KEY environment variable")
        end
    end;
  let config := DeHashedConfig_new key in
  mret {| config := config;
          session_headers := [("Dehashed-Api-Key", api_key config);
                              ("Content-Type", "application/json")] |}.

(** The request [_make_request] sends: [json=data if data else {}]. *)
Definition make_request_call (self : DeHashedClient) (endpoint : string)
    (data : option dict) : request :=
  {| req_url := base_url (config self) +:+ endpoint;
     req_headers := session_headers self;
     req_json :=
       match data with
       | Some d => if truthy (PyDict d) then PyDict d else PyDict []
       | None => PyDict []
       end;
     req_timeout := timeout (config self) |}.

(** The body of the [try] in [_make_request]: post, [raise_for_status],
    decode. *)
Definition make_request_try (req : request) : requests_exn + pyval :=
  match session_post req with
  | NoResponse msg => inl (RequestException msg)
  | Responded response =>
      match raise_for_status response with
      | Some e => inl e
      | None =>
          match json response with
          | Decoded v => inr v
          | Undecodable msg => inl (RequestException msg)
          | Crashed e => inl (Other e)
          end
      end
  end.

(** The handler of [HTTPError] in [_make_request].  The inner [try] ends in a
    bare [except: pass]: when the decoder raises, whatever it raises, or the
    body decodes to something that is no [dict] (the membership test or the
    subscript then raises [TypeError]), the first message stays. *)
Definition http_error_msg (e_str : string) (response : Response) : string :=
  let error_msg := "API request failed: " +:+ e_str in
  match json response with
  | Decoded (PyDict error_details) =>
      match dict_lookup "message" error_details with
      | Some m => "API Error: " +:+ py_str m
      | None =>
          match dict_lookup "error" error_details with
          | Some m => "API Error: " +:+ py_str m
          | None => error_msg
          end
      end
  | _ => error_msg
  end.

Definition _make_request (self : DeHashedClient) (endpoint : string)
    (data : option dict) : M pyval := λ log,
  let req := make_request_call self endpoint data in
  let log := (log ++ [req])%list in
  match make_request_try req with
  | inr v => (Return v, log)
  | inl (HTTPError e_str response) =>
      (Raise (DeHashedAPIError (http_error_msg e_str response)), log)
  | inl (RequestException e_str) =>
      (Raise (DeHashedAPIError ("API request failed: " +:+ e_str)), log)
  | inl (Other e) => (Raise e, log)
  end.

(** *** Search API.  An argument with a default in the signature is an
    [option]: [None] when the call leaves it out. *)

Definition search_data (query : string) (page size : option Z)
    (wildcard regex de_dupe : option bool) : dict :=
  [("query", PyStr query);
   ("page", PyInt (default 1 page));
   ("size", PyInt (default 10000 size));
   ("wildcard", PyBool (default false wildcard));
   ("regex", PyBool (default false regex));
   ("de_dupe", PyBool (default false de_dupe))].

Definition search (self : DeHashedClient) (query : string)
    (page size : option Z) (wildcard regex de_dupe : option bool) : M pyval :=
  _make_request self "/search"
    (Some (search_data query page size wildcard regex de_dupe)).

Definition search_password (self : DeHashedClient) (password_hash : string)
    : M pyval :=
  _make_request self "/search-password" (Some [("hash", PyStr password_hash)]).

(** *** Monitoring API *)

Definition str_list (l : list string) : pyval := PyList (PyStr <$> l).

(** [if x: data[k] = x] on an optional argument: nothing is set when the
    argument is [None] or falsy (an empty [str], an empty [list]). *)
Definition set_if_given {A} (to_py : A → pyval) (k : string) (x : option A)
    (data : dict) : dict :=
  match x with
  | Some a => if truthy (to_py a) then dict_set k (to_py a) data else data
  | None => data
  end.

Definition monitoring_create_task_data (task_type value : string)
    (channels : option (list string)) : dict :=
  let data := [("type", PyStr task_type); ("value", PyStr value)] in
  set_if_given str_list "channels" channels data.

Definition monitoring_create_task (self : DeHashedClient)
    (task_type value : string) (channels : option (list string)) : M pyval :=
  _make_request self "/monitoring/create-task"
    (Some (monitoring_create_task_data task_type value channels)).

Definition monitoring_update_task_data (task_id task_type value : string)
    (channels : option (list string)) : dict :=
  let data := [("id", PyStr task_id); ("type", PyStr task_type);
               ("value", PyStr value)] in
  set_if_given str_list "channels" channels data.

Definition monitoring_update_task (self : DeHashedClient)
    (task_id task_type value : string) (channels : option (list string))
    : M pyval :=
  _make_request self "/monitoring/update-task"
    (Some (monitoring_update_task_data task_id task_type value channels)).

Definition monitoring_update_task_status (self : DeHashedClient)
    (task_id : string) (active : bool) : M pyval :=
  _make_request self "/monitoring/update-task"
    (Some [("id", PyStr task_id); ("active", PyBool active)]).

Definition monitoring_delete_task (self : DeHashedClient) (task_id : string)
    : M pyval :=
  _make_request self "/monitoring/delete-task" (Some [("id", PyStr task_id)]).

Definition monitoring_get_tasks (self : DeHashedClient) (page : option Z)
    : M pyval :=
  _make_request self "/monitoring/get-tasks"
    (Some [("page", PyInt (default 1 page))]).

Definition monitoring_get_task (self : DeHashedClient) (task_id : string)
    : M pyval :=
  _make_request self "/monitoring/get-task" (Some [("id", PyStr task_id)]).

Definition monitoring_get_reports (self : DeHashedClient) (page : option Z)
    : M pyval :=
  _make_request self "/monitoring/get-reports"
    (Some [("page", PyInt (default 1 page))]).

Definition monitoring_get_report (self : DeHashedClient) (report_id : string)
    : M pyval :=
  _make_request self "/monitoring/get-report" (Some [("id", PyStr report_id)]).

Definition monitoring_get_channels (self : DeHashedClient) : M pyval :=
  _make_request self "/monitoring/get-channels" (Some []).

Definition monitoring_update_channel (self : DeHashedClient)
    (channel_type value : string) : M pyval :=
  _make_request self "/monitoring/update-channel"
    (Some [("type", PyStr channel_type); ("value", PyStr value)]).

Definition monitoring_delete_channel (self : DeHashedClient)
    (channel_type : string) : M pyval :=
  _make_request self "/monitoring/delete-channel"
    (Some [("channel", PyStr channel_type)]).

(** *** WHOIS API *)

Definition whois_data (search_type domain : string) : dict :=
  [("search_type", PyStr search_type); ("domain", PyStr domain)].

Definition whois_search (self : DeHashedClient) (domain : string) : M pyval :=
  _make_request self "/whois/search" (Some (whois_data "whois" domain)).

Definition whois_history (self : DeHashedClient) (domain : string) : M pyval :=
  _make_request self "/whois/search" (Some (whois_data "whois-history" domain)).

Definition whois_reverse_data (name organization email : option string)
    (include exclude : option (list string)) : dict :=
  let data := [("search_type", PyStr "reverse-whois")] in
  let data := set_if_given PyStr "name" name data in
  let data := set_if_given PyStr "organization" organization data in
  let data := set_if_given PyStr "email" email data in
  let data := set_if_given str_list "include" include data in
  let data := set_if_given str_list "exclude" exclude data in
  data.

Definition whois_reverse (self : DeHashedClient)
    (name organization email : option string)
    (include exclude : option (list string)) : M pyval :=
  _make_request self "/whois/search"
    (Some (whois_reverse_data name organization email include exclude)).

Definition whois_ip (self : DeHashedClient) (ip_address : string) : M pyval :=
  _make_request self "/whois/search" (Some (whois_data "reverse-ip" ip_address)).

Definition whois_mx (self : DeHashedClient) (mx_server : string) : M pyval :=
  _make_request self "/whois/search" (Some (whois_data "reverse-mx" mx_server)).

Definition whois_ns (self : DeHashedClient) (ns_server : string) : M pyval :=
  _make_request self "/whois/search" (Some (whois_data "reverse-ns" ns_server)).

Definition whois_subdomain_scan (self : DeHashedClient) (domain : string)
    : M pyval :=
  _make_request self "/whois/search" (Some (whois_data "subdomain-scan" domain)).

(** *** Utility methods *)

(** [response.get("balance")]: only a [dict] has a [get]. *)
Definition response_get (k : string) (response : pyval) : M pyval :=
  match response with
  | PyDict d => mret (dict_get k d)
  | _ => raise AttributeError
  end.

Definition get_balance (self : DeHashedClient) : M pyval :=
  try_except
    (response ← search self "email:test@test.com" None (Some 1) None None None;
     response_get "balance" response)
    (λ _, mret PyNone).

End client.

(** ** Export to CSV *)

(** The rows [save_results_to_csv] leaves in the file, each row the list of
    its cells before the dialect quotes and joins them; or nothing written;
    or the error that ended the call. *)
Inductive csv_outcome : Type :=
  | NoEntries
  | Written (filename : string) (rows : list (list string))
  | Failed (e : exn).

(** [for entry in entries: fieldnames.update(entry.keys())] reaches the end
    only on a list of dicts: a number is not iterable, and neither an element
    of a list that is no dict, nor a key of a dict, nor a character of a str
    has [keys]. *)
Definition as_dicts (l : list pyval) : result (list dict) :=
  mapM (λ entry, match entry with
                 | PyDict d => Return d
                 | _ => Raise AttributeError
                 end) l.

Definition iter_entries (entries : pyval) : result (list dict) :=
  match entries with
  | PyList l => as_dicts l
  | PyDict _ | PyStr _ => Raise AttributeError
  | PyNone | PyBool _ | PyInt _ | PyFloat _ => Raise TypeError
  end.

Definition collect_fieldnames (entries : list dict) : gset string :=
  foldl (λ fieldnames entry, fieldnames ∪ list_to_set (dict_keys entry))
        ∅ entries.

Definition priority_fields : list string := ["id"; "database_name"].

(** [sorted] on strings: ascending by code points. *)
Definition sorted (l : list string) : list string := merge_sort String.le l.

(** [sorted([f for f in fieldnames if f not in priority_fields and
    f != 'raw_record'])] *)
Definition other_fields (fieldnames : gset string) : list string :=
  sorted (filter (λ f, (f ∉ priority_fields) ∧ (f ≠ "raw_record"))
                 (elements fieldnames)).

Definition sort_fields (fieldnames : gset string) : list string :=
  let sorted_fields := (priority_fields ++ other_fields fieldnames)%list in
  if decide ("raw_record" ∈ fieldnames)
  then (sorted_fields ++ ["raw_record"])%list
  else sorted_fields.

(** The value put under a key of [flattened] when the entry has the key. *)
Definition flatten_value (value : pyval) : pyval :=
  match value with
  | PyList l => PyStr (String.concat "; " (py_str <$> l))
  | PyDict _ => PyStr (json_dumps value)
  | _ => value
  end.

(** [flattened[key]] after the inner loop has passed [key]. *)
Definition flat_cell (entry : dict) (key : string) : pyval :=
  match dict_lookup key entry with
  | Some value => flatten_value value
  | None => PyStr EmptyString
  end.

(** [for key in keys: d[key] = f(key)] *)
Definition fill (f : string → pyval) (keys : list string) (d : dict) : dict :=
  foldl (λ d key, dict_set key (f key) d) d keys.

Definition flatten_entry (sorted_fields : list string) (entry : dict) : dict :=
  fill (flat_cell entry) sorted_fields [].

(** *** The [csv] module *)

(** How [csv.writer] turns a field into text: [None] is written as the empty
    string, a [str] as it is, anything else through [str]. *)
Definition csv_field (v : pyval) : string :=
  match v with
  | PyNone => EmptyString
  | PyStr s => s
  | _ => py_str v
  end.

(** [DictWriter.writerow] with [restval=''] and [extrasaction='raise']. *)
Definition DictWriter_writerow (fieldnames : list string) (rowdict : dict)
    : result (list string) :=
  if decide (dict_keys rowdict ⊆ fieldnames) then
    Return ((λ key, csv_field (default (PyStr EmptyString)
                                       (dict_lookup key rowdict))) <$> fieldnames)
  else Raise ValueError.

(** [DictWriter.writeheader]: the row of [dict(zip(fieldnames, fieldnames))]. *)
Definition DictWriter_writeheader (fieldnames : list string)
    : result (list string) :=
  DictWriter_writerow fieldnames (fill PyStr fieldnames []).

(** *** [save_results_to_csv] *)

Definition write_csv (sorted_fields : list string) (entries : list dict)
    : result (list (list string)) :=
  header ← DictWriter_writeheader sorted_fields;
  rows ← mapM (λ entry, DictWriter_writerow sorted_fields
                          (flatten_entry sorted_fields entry)) entries;
  mret (header :: rows).

Definition save_results_to_csv (results : dict) (filename : string)
    : csv_outcome :=
  match dict_lookup "entries" results with
  | None => NoEntries
  | Some entries =>
      if negb (truthy entries) then NoEntries
      else
        match iter_entries entries with
        | Raise e => Failed e
        | Return entries =>
            let fieldnames := collect_fieldnames entries in
            match write_csv (sort_fields fieldnames) entries with
            | Raise e => Failed e
            | Return rows => Written filename rows
            end
        end
  end.

(** The cells of the row written for an entry, column by column. *)
Definition flat_row (sorted_fields : list string) (entry : dict) : list string :=
  (λ key, csv_field (flat_cell entry key)) <$> sorted_fields.

(** ** Notions the properties are stated with *)

(** The payload of the last call in the log a method leaves. *)
Definition sent {A} (out : result A * list request) : option pyval :=
  req_json <$> last out.2.

(** The text of the [HTTPError] for a status from 400 to 599. *)
Definition status_line (r : Response) : string :=
  pretty (status_code r)
  +:+ (if status_code r <? 500 then " Client Error: " else " Server Error: ")
  +:+ reason r +:+ " for url: " +:+ url r.

(** [s] occurs in [t]. *)
Fixpoint occurs (s t : string) : bool :=
  String.prefix s t ||
  match t with
  | EmptyString => false
  | String _ t' => occurs s t'
  end.

(** A message carries a snippet of a body when some non-empty leading part
    of the body occurs in it. *)
Definition carries_snippet (body msg : string) : bool :=
  existsb (λ n, occurs (String.substring 0 n body) msg)
          (seq 1 (String.length body)).

(** The items an optional argument contributes to a payload. *)
Definition item_if_given {A} (to_py : A → pyval) (k : string) (x : option A)
    : dict :=
  match x with
  | Some a => if truthy (to_py a) then [(k, to_py a)] else []
  | None => []
  end.

(** ** Sample inputs *)

(** A session that gives the same reply to every request. *)
Definition always (r : reply) : request → reply := λ _, r.

(** The client [DeHashedClient(api_key="secret")]. *)
Definition sample_client : DeHashedClient :=
  {| config := DeHashedConfig_new "secret";
     session_headers := [("Dehashed-Api-Key", "secret");
                         ("Content-Type", "application/json")] |}.

(** A 200 response with an HTML body, which [response.json()] rejects. *)
Definition html_response : Response :=
  {| status_code := 200; reason := "OK";
     url := "https://api.dehashed.com/v2/search";
     text := "<html>maintenance</html>";
     json := Undecodable "Expecting value: line 1 column 1 (char 0)" |}.

(** A response with the body [{"message": "invalid query"}]. *)
Definition invalid_query_response (status : Z) (reason : string) : Response :=
  {| status_code := status; reason := reason;
     url := "https://api.dehashed.com/v2/search";
     text := "{" +:+ json_str "message" +:+ ": " +:+ json_str "invalid query" +:+ "}";
     json := Decoded (PyDict [("message", PyStr "invalid query")]) |}.

(** A successful search response. *)
Definition balance_response : Response :=
  {| status_code := 200; reason := "OK";
     url := "https://api.dehashed.com/v2/search";
     text := "{" +:+ json_str "balance" +:+ ": 42, " +:+ json_str "entries" +:+ ": []}";
     json := Decoded (PyDict [("balance", PyInt 42); ("entries", PyList [])]) |}.

(** Two entries with different fields, neither with a [database_name]. *)
Definition ragged_entries : list dict :=
  [[("id", PyStr "1"); ("x", PyStr "a")];
   [("id", PyStr "2"); ("y", PyStr "b")]].

Definition ragged_results : dict :=
  [("balance", PyInt 4); ("entries", PyList (PyDict <$> ragged_entries))].

(** An entry with a list, a nested mapping, a number, a boolean and a null. *)
Definition mixed_entries : list dict :=
  [[("id", PyInt 7);
    ("database_name", PyStr "Example");
    ("email", PyList [PyStr "a"; PyStr "b"; PyStr "c"]);
    ("raw_record", PyDict [("le_only", PyBool true); ("n", PyList [PyInt 1; PyNone])]);
    ("phone", PyNone)]].

Definition mixed_results : dict :=
  [("entries", PyList (PyDict <$> mixed_entries))].

(** ** Printing and saving results *)

(** [json.dumps(v, indent=indent)] at a nesting level: the items of a
    non-empty list or dict stand on lines of their own, separated by a comma
    without a space; an empty list or dict is printed closed. *)
Definition newline_indent (indent level : nat) : string :=
  char (ascii_of_N 10) +:+ String.concat EmptyString (replicate (indent * level) " ").

Fixpoint json_dumps_indent (indent level : nat) (v : pyval) : string :=
  match v with
  | PyList l =>
      match l with
      | [] => "[]"
      | _ :: _ =>
          "[" +:+ newline_indent indent (S level)
          +:+ String.concat ("," +:+ newline_indent indent (S level))
                (map (json_dumps_indent indent (S level)) l)
          +:+ newline_indent indent level +:+ "]"
      end
  | PyDict d =>
      match d with
      | [] => "{}"
      | _ :: _ =>
          "{" +:+ newline_indent indent (S level)
          +:+ String.concat ("," +:+ newline_indent indent (S level))
                (map (λ kv, let '(k, x) := kv in
                            json_str k +:+ ": "
                            +:+ json_dumps_indent indent (S level) x) d)
          +:+ newline_indent indent level +:+ "}"
      end
  | _ => json_dumps v
  end.

(** What a run leaves behind: the calls sent, what was printed, the files
    written, and how many sessions were created and closed. *)
Inductive output : Type :=
  | Printed (s : string)
  | Help.

Inductive file : Type :=
  | CsvFile (rows : list (list string))
  | TextFile (content : string).

Record world : Type := World {
  calls : list request;
  stdout : list output;
  stderr : list string;
  files : list (string * file);
  opened : nat;
  closed : nat
}.

(** An exception of the client or of the interpreter, or the [OSError] of
    an [open] that fails. *)
Inductive cli_exn : Type :=
  | PyExn (e : exn)
  | OSError (filename : string).

Inductive outcome (A : Type) : Type :=
  | Done (a : A)
  | Thrown (e : cli_exn).
Arguments Done {A} a.
Arguments Thrown {A} e.

Definition IO (A : Type) : Type := world → outcome A * world.

#[global] Instance IO_ret : MRet IO := λ A a w, (Done a, w).
#[global] Instance IO_bind : MBind IO := λ A B f m w,
  match m w with
  | (Done a, w') => f a w'
  | (Thrown e, w') => (Thrown e, w')
  end.

Definition throw {A} (e : cli_exn) : IO A := λ w, (Thrown e, w).

(** [print(s)] *)
Definition print (s : string) : IO unit := λ w,
  (Done (), World (calls w) (stdout w ++ [Printed s]) (stderr w) (files w)
                  (opened w) (closed w)).

(** [print(s, file=sys.stderr)] *)
Definition eprint (s : string) : IO unit := λ w,
  (Done (), World (calls w) (stdout w) (stderr w ++ [s]) (files w)
                  (opened w) (closed w)).

(** [parser.print_help()] *)
Definition print_help : IO unit := λ w,
  (Done (), World (calls w) (stdout w ++ [Help]) (stderr w) (files w)
                  (opened w) (closed w)).

(** A method of the client, run on the calls of the world. *)
Definition call {A} (m : M A) : IO A := λ w,
  match m (calls w) with
  | (Return a, log) =>
      (Done a, World log (stdout w) (stderr w) (files w) (opened w) (closed w))
  | (Raise e, log) =>
      (Thrown (PyExn e),
       World log (stdout w) (stderr w) (files w) (opened w) (closed w))
  end.

(** [s.endswith(suffix)] *)
Definition endswith (s suffix : string) : bool :=
  bool_decide (String.list_ascii_of_string suffix
                 `suffix_of` String.list_ascii_of_string s).

(** [s.split(sep)] for a separator of one character: the parts between the
    separators, empty parts included; never the empty list. *)
Fixpoint split (sep : ascii) (s : string) : list string :=
  match s with
  | EmptyString => [EmptyString]
  | String c s' =>
      if decide (c = sep) then EmptyString :: split sep s'
      else match split sep s' with
           | part :: parts => String c part :: parts
           | [] => [char c]
           end
  end.

(** [if x:] on an attribute that holds a [str] or [None]. *)
Definition given (x : option string) : bool :=
  match x with
  | Some s => truthy (PyStr s)
  | None => false
  end.

Section cli.

Variable environ : string → option string.
Variable session_post : request → reply.

(** Whether [open(filename, 'w')] succeeds. *)
Variable writable : string → bool.

(** [with open(filename, 'w') as f:] and the writes to [f]. *)
Definition write_file (filename : string) (content : file) : IO unit := λ w,
  if writable filename then
    (Done (), World (calls w) (stdout w) (stderr w)
                    (files w ++ [(filename, content)]) (opened w) (closed w))
  else (Thrown (OSError filename), w).

Definition pretty_print_results (results : pyval) : IO unit :=
  print (json_dumps_indent 2 0 results).

Definition save_results_to_file (results : pyval) (filename : string)
    : IO unit :=
  write_file filename (TextFile (json_dumps_indent 2 0 results));;
  print ("Results saved to " +:+ filename).

(** [len(entries)] of the entries the export has iterated. *)
Definition len_entries (results : dict) : nat :=
  match dict_lookup "entries" results with
  | Some (PyList l) => length l
  | _ => 0
  end.

(** [save_results_to_csv] with its effects, on a [dict]: the file is opened
    after the header is computed, and the two lines are printed after the
    file is closed. *)
Definition save_results_to_csv_dict (results : dict) (filename : string)
    : IO unit :=
  match save_results_to_csv results filename with
  | NoEntries => print "No entries found in results to export to CSV"
  | Failed e => throw (PyExn e)
  | Written filename rows =>
      write_file filename (CsvFile rows);;
      print ("Results saved to " +:+ filename);;
      print ("Total entries exported: " +:+ pretty (len_entries results))
  end.

(** [save_results_to_csv] on whatever the search has returned.  On a value
    that is no [dict], ['entries' not in results] is a test for an element
    (of a list) or for a substring (of a [str]), and raises [TypeError] on
    anything else; when the test finds ['entries'], the subscript
    [results['entries']] raises [TypeError]. *)
Definition save_results_to_csv_io (results : pyval) (filename : string)
    : IO unit :=
  match results with
  | PyDict d => save_results_to_csv_dict d filename
  | PyList l =>
      if existsb (λ x, match x with
                       | PyStr s => bool_decide (s = "entries")
                       | _ => false
                       end) l
      then throw (PyExn TypeError)
      else print "No entries found in results to export to CSV"
  | PyStr s =>
      if occurs "entries" s then throw (PyExn TypeError)
      else print "No entries found in results to export to CSV"
  | PyNone | PyBool _ | PyInt _ | PyFloat _ => throw (PyExn TypeError)
  end.

(** [with DeHashedClient(api_key=api_key) as client: body].  The session is
    created at the end of [__init__]; [__exit__] closes it and lets an
    exception of the body pass. *)
Definition with_client {A} (api_key : option string)
    (body : DeHashedClient → IO A) : IO A := λ w,
  match call (DeHashedClient_init environ api_key) w with
  | (Thrown e, w) => (Thrown e, w)
  | (Done client, w) =>
      let w := World (calls w) (stdout w) (stderr w) (files w)
                     (S (opened w)) (closed w) in
      let '(r, w) := body client w in
      (r, World (calls w) (stdout w) (stderr w) (files w)
                (opened w) (S (closed w)))
  end.

(** The block that [cmd_search] and [cmd_search_password] share: where the
    results go. *)
Definition output_results (results : pyval) (output format : option string)
    : IO unit :=
  if given output then
    let output_format :=
      if negb (given format) then
        if endswith (default EmptyString output) ".csv" then Some "csv"
        else Some "json"
      else format in
    if bool_decide (output_format = Some "csv")
    then save_results_to_csv_io results (default EmptyString output)
    else save_results_to_file results (default EmptyString output)
  else pretty_print_results results.

Record search_args : Type := {
  s_api_key : option string;
  s_query : string;
  s_page : Z;
  s_size : Z;
  s_wildcard : bool;
  s_regex : bool;
  s_dedupe : bool;
  s_output : option string;
  s_format : option string
}.

Definition cmd_search (args : search_args) : IO unit :=
  with_client (s_api_key args) (λ client,
    results ← call (search session_post client (s_query args)
                      (Some (s_page args)) (Some (s_size args))
                      (Some (s_wildcard args)) (Some (s_regex args))
                      (Some (s_dedupe args)));
    output_results results (s_output args) (s_format args)).

Record search_password_args : Type := {
  p_api_key : option string;
  p_hash : string;
  p_output : option string;
  p_format : option string
}.

Definition cmd_search_password (args : search_password_args) : IO unit :=
  with_client (p_api_key args) (λ client,
    results ← call (search_password session_post client (p_hash args));
    output_results results (p_output args) (p_format args)).

Record create_task_args : Type := {
  c_api_key : option string;
  c_type : string;
  c_value : string;
  c_channels : option string
}.

(** [args.channels.split(',') if args.channels else None] *)
Definition split_channels (channels : option string) : option (list string) :=
  if given channels then Some (split "," (default EmptyString channels))
  else None.

Definition cmd_monitoring_create_task (args : create_task_args) : IO unit :=
  with_client (c_api_key args) (λ client,
    task ← call (monitoring_create_task session_post client (c_type args)
                   (c_value args) (split_channels (c_channels args)));
    pretty_print_results task).

Record get_tasks_args : Type := {
  g_api_key : option string;
  g_page : Z;
  g_output : option string
}.

Definition cmd_monitoring_get_tasks (args : get_tasks_args) : IO unit :=
  with_client (g_api_key args) (λ client,
    tasks ← call (monitoring_get_tasks session_post client (Some (g_page args)));
    if given (g_output args)
    then save_results_to_file tasks (default EmptyString (g_output args))
    else pretty_print_results tasks).

Record delete_task_args : Type := {
  d_api_key : option string;
  d_task_id : string
}.

Definition cmd_monitoring_delete_task (args : delete_task_args) : IO unit :=
  with_client (d_api_key args) (λ client,
    result ← call (monitoring_delete_task session_post client (d_task_id args));
    pretty_print_results result).

Record whois_args : Type := {
  w_api_key : option string;
  w_type : string;
  w_domain : option string;
  w_name : option string;
  w_organization : option string;
  w_email : option string;
  w_output : option string
}.

(** A WHOIS method called with [args.domain], which is [None] when the
    command line has no domain: the method puts what it gets under
    [domain]. *)
Definition whois_call (client : DeHashedClient) (search_type : string)
    (domain : option string) : M pyval :=
  _make_request session_post client "/whois/search"
    (Some [("search_type", PyStr search_type);
           ("domain", from_option PyStr PyNone domain)]).

Definition cmd_whois (args : whois_args) : IO unit :=
  with_client (w_api_key args) (λ client,
    let finish (results : pyval) : IO unit :=
      if given (w_output args)
      then save_results_to_file results (default EmptyString (w_output args))
      else pretty_print_results results in
    if decide (w_type args = "lookup") then
      call (whois_call client "whois" (w_domain args)) ≫= finish
    else if decide (w_type args = "history") then
      call (whois_call client "whois-history" (w_domain args)) ≫= finish
    else if decide (w_type args = "reverse") then
      call (whois_reverse session_post client (w_name args)
              (w_organization args) (w_email args) None None) ≫= finish
    else if decide (w_type args = "ip") then
      call (whois_call client "reverse-ip" (w_domain args)) ≫= finish
    else if decide (w_type args = "mx") then
      call (whois_call client "reverse-mx" (w_domain args)) ≫= finish
    else if decide (w_type args = "ns") then
      call (whois_call client "reverse-ns" (w_domain args)) ≫= finish
    else if decide (w_type args = "subdomain") then
      call (whois_call client "subdomain-scan" (w_domain args)) ≫= finish
    else print ("Unknown WHOIS type: " +:+ w_type args)).

Definition cmd_balance (api_key : option string) : IO unit :=
  with_client api_key (λ client,
    balance ← call (get_balance session_post client);
    print ("Account balance: " +:+ py_str balance +:+ " credits")).

(** What [parser.parse_args()] returns when it returns: no command at all,
    [monitoring] without a sub-command (a namespace without [func]), or a
    command with its arguments. *)
Inductive invocation : Type :=
  | NoCommand
  | MonitoringAlone
  | Search (args : search_args)
  | SearchPassword (args : search_password_args)
  | CreateTask (args : create_task_args)
  | GetTasks (args : get_tasks_args)
  | DeleteTask (args : delete_task_args)
  | Whois (args : whois_args)
  | Balance (api_key : option string).

(** [args.func(args)]; [AttributeError] when the namespace has no [func]. *)
Definition run_func (inv : invocation) : IO unit :=
  match inv with
  | NoCommand | MonitoringAlone => throw (PyExn AttributeError)
  | Search args => cmd_search args
  | SearchPassword args => cmd_search_password args
  | CreateTask args => cmd_monitoring_create_task args
  | GetTasks args => cmd_monitoring_get_tasks args
  | DeleteTask args => cmd_monitoring_delete_task args
  | Whois args => cmd_whois args
  | Balance api_key => cmd_balance api_key
  end.

(** How the process ends: [main] returns, [sys.exit(code)], or an exception
    that no handler of [main] takes. *)
Inductive ending : Type :=
  | Returned
  | Exit (code : Z)
  | Uncaught (e : cli_exn).

(** [main], after [parse_args].  No operation of the model raises
    [KeyboardInterrupt]; its handler is left out. *)
Definition main (inv : invocation) : world → ending * world := λ w,
  match inv with
  | NoCommand => (Exit 1, (print_help w).2)
  | _ =>
      match run_func inv w with
      | (Done _, w) => (Returned, w)
      | (Thrown (PyExn (DeHashedAPIError e)), w) =>
          (Exit 1, (eprint ("Error: " +:+ e) w).2)
      | (Thrown (PyExn AttributeError), w) => (Exit 1, (print_help w).2)
      | (Thrown e, w) => (Uncaught e, w)
      end
  end.

End cli.

(** ** Notions the further properties are stated with *)

(** A method, run on a log, has sent one more request: to [url], with the
    JSON body [payload]. *)
Definition posts {A} (out : result A * list request) (log : list request)
    (url : string) (payload : pyval) : Prop :=
  ∃ req, out.2 = (log ++ [req])%list ∧ req_url req = url
         ∧ req_json req = payload.

(** The key [__init__] settles on. *)
Definition resolve_key (environ : string → option string)
    (api_key : option string) : option string :=
  match api_key with
  | Some k => Some k
  | None => environ "DEHASHED_API_KEY"
  end.

(** The client [__init__] builds around a key. *)
Definition new_client (key : string) : DeHashedClient :=
  {| config := DeHashedConfig_new key;
     session_headers := [("Dehashed-Api-Key", key);
                         ("Content-Type", "application/json")] |}.

(** The sessions created and not yet closed. *)
Definition open_sessions (w : world) : Z :=
  Z.of_nat (opened w) - Z.of_nat (closed w).

Definition empty_world : world := World [] [] [] [] 0 0.

Definition missing_key_message : string :=
  "API key must be provided or set in DEHASHED_API_KEY environment variable".

(** The [--api-key] of an invocation that names a command function. *)
Definition inv_api_key (inv : invocation) : option (option string) :=
  match inv with
  | NoCommand | MonitoringAlone => None
  | Search args => Some (s_api_key args)
  | SearchPassword args => Some (p_api_key args)
  | CreateTask args => Some (c_api_key args)
  | GetTasks args => Some (g_api_key args)
  | DeleteTask args => Some (d_api_key args)
  | Whois args => Some (w_api_key args)
  | Balance api_key => Some api_key
  end.

(** The sessions a run creates: one when it runs a command function and a key
    is at hand. *)
Definition sessions_of (environ : string → option string)
    (api_key : option (option string)) : nat :=
  match api_key with
  | Some api_key =>
      match resolve_key environ api_key with Some _ => 1 | None => 0 end
  | None => 0
  end.

(** The types [cmd_whois] knows. *)
Definition whois_types : list string :=
  ["lookup"; "history"; "reverse"; "ip"; "mx"; "ns"; "subdomain"].

(** The invocations whose command function calls the service once and uses
    the result. *)
Definition sends_request (inv : invocation) : bool :=
  match inv with
  | Search _ | SearchPassword _ | CreateTask _ | GetTasks _ | DeleteTask _ =>
      true
  | Whois args => bool_decide (w_type args ∈ whois_types)
  | NoCommand | MonitoringAlone | Balance _ => false
  end.

(** Whether the output block of the search commands writes CSV. *)
Definition csv_chosen (format : option string) (out : string) : bool :=
  if given format then bool_decide (format = Some "csv")
  else endswith out ".csv".

(** A search response whose second entry is a string, not an object. *)
Definition broken_entries_response : Response :=
  {| status_code := 200; reason := "OK";
     url := "https://api.dehashed.com/v2/search";
     text := EmptyString;
     json := Decoded (PyDict [("entries",
                               PyList [PyDict [("id", PyStr "1")];
                                       PyStr "oops"])]) |}.

(** The command line [search email:a@example.com], with an output file and
    a format. *)
Definition sample_search (output format : option string) : search_args :=
  {| s_api_key := Some "secret"; s_query := "email:a@example.com";
     s_page := 1; s_size := 10000;
     s_wildcard := false; s_regex := false; s_dedupe := false;
     s_output := output; s_format := format |}.

(** A 200 response whose body is nested too deep for the decoder. *)
Definition nested_response : Response :=
  {| status_code := 200; reason := "OK";
     url := "https://api.dehashed.com/v2/search";
     text := EmptyString;
     json := Crashed RecursionError |}.

(** A computation that neither creates nor closes a session. *)
Definition keeps_sessions {A} (m : IO A) : Prop :=
  ∀ w, opened (m w).2 = opened w ∧ closed (m w).2 = closed w.

(** * Properties *)

(** ** Dictionaries *)

Lemma dict_lookup_set k k' v d :
  dict_lookup k' (dict_set k v d) =
    if decide (k' = k) then Some v else dict_lookup k' d.
Proof.
  induction d as [|[k0 v0] d IH]; simpl.
  - by case_decide.
  - repeat (case_decide; simplify_eq/=); try done.
Qed.

Lemma dict_lookup_None k d : dict_lookup k d = None ↔ k ∉ dict_keys d.
Proof.
  unfold dict_keys. induction d as [|[k0 v0] d IH]; simpl.
  - split; [intros _; apply not_elem_of_nil | done].
  - rewrite not_elem_of_cons. destruct (decide (k = k0)) as [->|Hne].
    + split; [done | by intros [? _]].
    + rewrite IH. split; [done | by intros [_ ?]].
Qed.

Lemma dict_lookup_is_Some k d : is_Some (dict_lookup k d) ↔ k ∈ dict_keys d.
Proof.
  destruct (dict_lookup k d) as [v|] eqn:E.
  - split; [intros _ | by eauto].
    destruct (decide (k ∈ dict_keys d)) as [|Hn]; [done |].
    apply dict_lookup_None in Hn. congruence.
  - split; [by intros [? ?] | intros Hin].
    apply dict_lookup_None in E. done.
Qed.

Lemma dict_keys_set k v d :
  dict_keys (dict_set k v d) =
    if decide (k ∈ dict_keys d) then dict_keys d else (dict_keys d ++ [k])%list.
Proof.
  unfold dict_keys. induction d as [|[k0 v0] d IH]; csimpl.
  - destruct (decide (k ∈ [])) as [Hin|_]; [by apply elem_of_nil in Hin | done].
  - destruct (decide (k = k0)) as [->|Hne]; csimpl.
    + destruct (decide (k0 ∈ k0 :: d.*1)) as [_|Hnin]; [done |].
      destruct Hnin. left.
    + rewrite IH.
      destruct (decide (k ∈ d.*1)) as [Hin|Hnin],
               (decide (k ∈ k0 :: d.*1)) as [Hin'|Hnin']; try done.
      * destruct Hnin'. by right.
      * apply elem_of_cons in Hin' as [?|?]; done.
Qed.

Lemma dict_lookup_fill f k keys d :
  dict_lookup k (fill f keys d) =
    if decide (k ∈ keys) then Some (f k) else dict_lookup k d.
Proof.
  unfold fill. revert d. induction keys as [|k0 keys IH]; intros d; simpl.
  - destruct (decide (k ∈ [])) as [Hin|_]; [by apply elem_of_nil in Hin | done].
  - rewrite IH, dict_lookup_set.
    destruct (decide (k ∈ keys)) as [Hin|Hnin],
             (decide (k ∈ k0 :: keys)) as [Hin'|Hnin'],
             (decide (k = k0)) as [->|Hne]; try done.
    + destruct Hnin'. by right.
    + destruct Hnin'. by right.
    + apply elem_of_cons in Hin' as [?|?]; done.
    + destruct Hnin'. left.
Qed.

Lemma dict_keys_fill f keys d :
  NoDup keys → (∀ k, k ∈ keys → k ∉ dict_keys d) →
  dict_keys (fill f keys d) = (dict_keys d ++ keys)%list.
Proof.
  unfold fill. revert d. induction keys as [|k0 keys IH]; intros d Hnd Hd; simpl.
  - by rewrite app_nil_r.
  - apply NoDup_cons in Hnd as [Hk0 Hnd].
    assert (dict_keys (dict_set k0 (f k0) d) = (dict_keys d ++ [k0])%list) as Hset.
    { rewrite dict_keys_set. destruct (decide (k0 ∈ dict_keys d)) as [Hin|_]; [| done].
      destruct (Hd k0); [left | done]. }
    rewrite IH, Hset; [by rewrite <-app_assoc | done |].
    intros k Hk. rewrite Hset, elem_of_app, list_elem_of_singleton.
    intros [Hin| ->]; [| done]. apply (Hd k); [by right | done].
Qed.

Lemma dict_keys_flatten_entry sorted_fields entry :
  NoDup sorted_fields →
  dict_keys (flatten_entry sorted_fields entry) = sorted_fields.
Proof.
  intros Hnd. unfold flatten_entry. rewrite dict_keys_fill; [done..|].
  intros k _. apply not_elem_of_nil.
Qed.

(** ** The header of the export *)

Lemma elem_of_collect_fieldnames k entries :
  k ∈ collect_fieldnames entries ↔
    ∃ entry, entry ∈ entries ∧ k ∈ dict_keys entry.
Proof.
  unfold collect_fieldnames.
  assert (∀ acc : gset string,
    k ∈ foldl (λ fieldnames entry, fieldnames ∪ list_to_set (dict_keys entry))
              acc entries ↔
      k ∈ acc ∨ ∃ entry, entry ∈ entries ∧ k ∈ dict_keys entry) as Hgen.
  { induction entries as [|e entries IH]; intros acc; simpl.
    - split; [by left | intros [?|(e & He & _)]; [done |]].
      by apply elem_of_nil in He.
    - rewrite IH, elem_of_union, elem_of_list_to_set. split.
      + intros [[?|?]|(e' & He' & ?)]; [by left | right; exists e | right; exists e'];
          split; try done; [left | by right].
      + intros [?|(e' & He' & ?)]; [by left; left |].
        apply elem_of_cons in He' as [->|He']; [by left; right |].
        right. by exists e'. }
  rewrite Hgen. split; [intros [Hin|?]; [| done] | by right].
  by apply not_elem_of_empty in Hin.
Qed.

Lemma elem_of_other_fields k fieldnames :
  k ∈ other_fields fieldnames ↔
    k ∈ fieldnames ∧ (k ∉ priority_fields) ∧ k ≠ "raw_record".
Proof.
  unfold other_fields, sorted.
  rewrite merge_sort_Permutation, list_elem_of_filter, elem_of_elements.
  tauto.
Qed.

Lemma NoDup_other_fields fieldnames : NoDup (other_fields fieldnames).
Proof.
  unfold other_fields, sorted. rewrite merge_sort_Permutation.
  apply NoDup_filter, NoDup_elements.
Qed.

Lemma StronglySorted_other_fields fieldnames :
  StronglySorted String.le (other_fields fieldnames).
Proof. apply (StronglySorted_merge_sort _). Qed.

Lemma sort_fields_app fieldnames :
  sort_fields fieldnames =
    (priority_fields ++ other_fields fieldnames ++
     if decide ("raw_record" ∈ fieldnames) then ["raw_record"] else [])%list.
Proof.
  unfold sort_fields. case_decide; [by rewrite <-app_assoc |].
  by rewrite app_nil_r.
Qed.

Lemma elem_of_sort_fields k fieldnames :
  k ∈ sort_fields fieldnames ↔ k ∈ priority_fields ∨ k ∈ fieldnames.
Proof.
  rewrite sort_fields_app, !elem_of_app, elem_of_other_fields.
  destruct (decide (k ∈ priority_fields)) as [?|Hp]; [tauto |].
  destruct (decide (k = "raw_record")) as [->|Hr].
  - case_decide as Hin.
    + rewrite list_elem_of_singleton. tauto.
    + split; [intros [?|[[? _]|Hnil]]; try tauto | tauto].
      by apply elem_of_nil in Hnil.
  - split; [intros [?|[[? _]|Hlast]]; try tauto | tauto].
    case_decide; [by apply list_elem_of_singleton in Hlast |].
    by apply elem_of_nil in Hlast.
Qed.

Lemma NoDup_sort_fields fieldnames : NoDup (sort_fields fieldnames).
Proof.
  rewrite sort_fields_app. apply NoDup_app. split_and!.
  - unfold priority_fields. apply NoDup_cons. split.
    + rewrite list_elem_of_singleton. done.
    + apply NoDup_singleton.
  - intros k Hp. rewrite elem_of_app, elem_of_other_fields.
    intros [(_ & Hnp & _)|Hlast]; [done |].
    case_decide; [| by apply elem_of_nil in Hlast].
    apply list_elem_of_singleton in Hlast as ->.
    unfold priority_fields in Hp.
    apply elem_of_cons in Hp as [?|Hp]; [done |].
    by apply list_elem_of_singleton in Hp.
  - apply NoDup_app. split_and!; [apply NoDup_other_fields | |].
    + intros k (_ & _ & Hr)%elem_of_other_fields Hlast.
      case_decide; [| by apply elem_of_nil in Hlast].
      by apply list_elem_of_singleton in Hlast.
    + case_decide; [apply NoDup_singleton | apply NoDup_nil_2].
Qed.

(** The order of the columns: the two priority fields, then the other field
    names of the entries in ascending order without repeats, then
    [raw_record] when some entry has it. *)
Lemma header_order fieldnames :
  ∃ others,
    sort_fields fieldnames =
      ("id" :: "database_name" :: others ++
       if decide ("raw_record" ∈ fieldnames) then ["raw_record"] else [])%list
    ∧ StronglySorted String.le others
    ∧ NoDup others
    ∧ ∀ k, k ∈ others ↔
        k ∈ fieldnames ∧ k ≠ "id" ∧ k ≠ "database_name" ∧ k ≠ "raw_record".
Proof.
  exists (other_fields fieldnames). split_and!.
  - apply sort_fields_app.
  - apply StronglySorted_other_fields.
  - apply NoDup_other_fields.
  - intros k. rewrite elem_of_other_fields. unfold priority_fields.
    rewrite not_elem_of_cons, list_elem_of_singleton. tauto.
Qed.

(** ** The rows of the export *)

Lemma mapM_Return {A B} (f : A → result B) (g : A → B) (l : list A) :
  (∀ x, x ∈ l → f x = Return (g x)) → mapM f l = Return (g <$> l).
Proof.
  induction l as [|x l IH]; intros Hf; [done |]. simpl.
  rewrite (Hf x) by left. simpl.
  rewrite IH; [done |]. intros y Hy. apply Hf. by right.
Qed.

Lemma result_bind_Return {A B} (m : result A) (k : A → result B) a b :
  m = Return a → k a = b → m ≫= k = b.
Proof. by intros -> <-. Qed.

Lemma as_dicts_fmap entries : as_dicts (PyDict <$> entries) = Return entries.
Proof.
  unfold as_dicts. induction entries as [|e entries IH]; [done |].
  csimpl. eapply result_bind_Return; [exact IH | done].
Qed.

Lemma writerow_fill f fieldnames :
  NoDup fieldnames →
  DictWriter_writerow fieldnames (fill f fieldnames []) =
    Return ((λ key, csv_field (f key)) <$> fieldnames).
Proof.
  intros Hnd. unfold DictWriter_writerow.
  rewrite dict_keys_fill by (done || intros k _; apply not_elem_of_nil).
  rewrite decide_True by done. f_equal.
  apply list_fmap_ext. intros i key Hkey.
  rewrite dict_lookup_fill, decide_True; [done |].
  by eapply list_elem_of_lookup_2.
Qed.

Lemma writeheader_Return fieldnames :
  NoDup fieldnames → DictWriter_writeheader fieldnames = Return fieldnames.
Proof.
  intros Hnd. unfold DictWriter_writeheader. rewrite writerow_fill by done.
  f_equal. by rewrite <-(list_fmap_id fieldnames) at 2.
Qed.

Lemma write_csv_Return sorted_fields entries :
  NoDup sorted_fields →
  write_csv sorted_fields entries =
    Return (sorted_fields :: (flat_row sorted_fields <$> entries)).
Proof.
  intros Hnd. unfold write_csv. rewrite writeheader_Return by done. simpl.
  rewrite (mapM_Return _ (flat_row sorted_fields)); [done |].
  intros entry _. by apply writerow_fill.
Qed.

Lemma save_results_to_csv_Written results filename (entries : list dict) :
  dict_lookup "entries" results = Some (PyList (PyDict <$> entries)) →
  entries ≠ [] →
  save_results_to_csv results filename =
    Written filename
      (sort_fields (collect_fieldnames entries)
       :: (flat_row (sort_fields (collect_fieldnames entries)) <$> entries)).
Proof.
  intros Hres Hne. unfold save_results_to_csv. rewrite Hres.
  assert (truthy (PyList (PyDict <$> entries)) = true) as ->.
  { simpl. rewrite bool_decide_false; [done |].
    by intros ->%fmap_nil_inv. }
  simpl. rewrite as_dicts_fmap, write_csv_Return; [done |].
  apply NoDup_sort_fields.
Qed.

(** Every field name of every entry is a column, and a column that is no
    priority field is a field name of some entry. *)
Lemma header_columns k entries :
  k ∈ sort_fields (collect_fieldnames entries) ↔
    k ∈ priority_fields ∨ ∃ entry, entry ∈ entries ∧ k ∈ dict_keys entry.
Proof. by rewrite elem_of_sort_fields, elem_of_collect_fieldnames. Qed.

(** When both priority fields occur in the entries, the columns are the
    field names of the entries. *)
Lemma header_columns_priority_present k entries :
  (∀ p, p ∈ priority_fields → ∃ entry, entry ∈ entries ∧ p ∈ dict_keys entry) →
  k ∈ sort_fields (collect_fieldnames entries) ↔
    ∃ entry, entry ∈ entries ∧ k ∈ dict_keys entry.
Proof.
  intros Hp. rewrite header_columns. split; [intros [?|?]; auto | auto].
Qed.

(** C1 (the code at the failing input): for the entries
    [{"id":"1","x":"a"}, {"id":"2","y":"b"}] the header written is
    [id, database_name, x, y]: the column [database_name] is there although
    no entry has the field, and every row has an empty cell under it. *)
Theorem ragged_header_has_database_name :
  save_results_to_csv ragged_results "out.csv" =
    Written "out.csv"
      [["id"; "database_name"; "x"; "y"];
       ["1"; EmptyString; "a"; EmptyString];
       ["2"; EmptyString; EmptyString; "b"]]
  ∧ Forall (λ entry, "database_name" ∉ dict_keys entry) ragged_entries.
Proof.
  split; [by vm_compute |].
  apply (bool_decide_unpack _). by vm_compute.
Qed.

(** C2: in one export, the file holds the header row and then one row per
    entry, in the order of the entries; the dict written for an entry has
    exactly the keys of the header, in the order of the header; the row has
    one cell per column; and the cell of a column whose field the entry
    lacks is the empty string (the cell of a field it has comes from that
    entry's value). *)
Theorem export_rows_match_header results filename (entries : list dict) :
  dict_lookup "entries" results = Some (PyList (PyDict <$> entries)) →
  entries ≠ [] →
  ∃ header rows,
    save_results_to_csv results filename = Written filename (header :: rows) ∧
    length rows = length entries ∧
    ∀ i entry, entries !! i = Some entry →
      dict_keys (flatten_entry header entry) = header ∧
      ∃ row, rows !! i = Some row ∧ length row = length header ∧
        ∀ j key, header !! j = Some key →
          match dict_lookup key entry with
          | None => row !! j = Some EmptyString
          | Some value => row !! j = Some (csv_field (flatten_value value))
          end.
Proof.
  intros Hres Hne.
  exists (sort_fields (collect_fieldnames entries)),
         (flat_row (sort_fields (collect_fieldnames entries)) <$> entries).
  split; [by apply save_results_to_csv_Written |].
  split; [by rewrite length_fmap |].
  intros i entry Hi. split.
  - apply dict_keys_flatten_entry, NoDup_sort_fields.
  - eexists. split; [by rewrite list_lookup_fmap, Hi |].
    unfold flat_row. split; [by rewrite length_fmap |].
    intros j key Hj. rewrite list_lookup_fmap, Hj. unfold flat_cell. simpl.
    by destruct (dict_lookup key entry).
Qed.

Lemma export_rows_match_header_witness :
  ∃ header rows,
    save_results_to_csv ragged_results "out.csv" =
      Written "out.csv" (header :: rows) ∧
    length rows = length ragged_entries ∧
    ∀ i entry, ragged_entries !! i = Some entry →
      dict_keys (flatten_entry header entry) = header ∧
      ∃ row, rows !! i = Some row ∧ length row = length header ∧
        ∀ j key, header !! j = Some key →
          match dict_lookup key entry with
          | None => row !! j = Some EmptyString
          | Some value => row !! j = Some (csv_field (flatten_value value))
          end.
Proof.
  apply (export_rows_match_header ragged_results "out.csv" ragged_entries).
  - reflexivity.
  - discriminate.
Defined.

(** C9 as stated fails on a null: the entry
    [{"id": "1", "email": None}] has an empty cell under [email], while the
    string representation of [None] is the text [None]. *)
Lemma null_field_is_empty_cell :
  save_results_to_csv
    [("entries", PyList [PyDict [("id", PyStr "1"); ("email", PyNone)]])]
    "out.csv" =
    Written "out.csv"
      [["id"; "database_name"; "email"]; ["1"; EmptyString; EmptyString]]
  ∧ py_str PyNone = "None".
Proof. split; by vm_compute. Qed.

(** C9 (amended): the cell of a field the entry has is, for a list, the
    [str] of its elements joined with ["; "]; for a nested mapping, its
    [json.dumps] text; for a null, the empty string; and for any other value
    its [str]. *)
Theorem export_cell_of_value results filename (entries : list dict) i entry :
  dict_lookup "entries" results = Some (PyList (PyDict <$> entries)) →
  entries !! i = Some entry →
  ∃ header rows row,
    save_results_to_csv results filename = Written filename (header :: rows) ∧
    rows !! i = Some row ∧
    ∀ j key value,
      header !! j = Some key → dict_lookup key entry = Some value →
      row !! j = Some
        match value with
        | PyList l => String.concat "; " (py_str <$> l)
        | PyDict _ => json_dumps value
        | PyNone => EmptyString
        | _ => py_str value
        end.
Proof.
  intros Hres Hi.
  assert (entries ≠ []) as Hne by (by intros ->).
  exists (sort_fields (collect_fieldnames entries)),
         (flat_row (sort_fields (collect_fieldnames entries)) <$> entries),
         (flat_row (sort_fields (collect_fieldnames entries)) entry).
  split; [by apply save_results_to_csv_Written |].
  split; [by rewrite list_lookup_fmap, Hi |].
  intros j key value Hj Hv. unfold flat_row, flat_cell.
  rewrite list_lookup_fmap, Hj. simpl. rewrite Hv. by destruct value.
Qed.

Lemma export_cell_of_value_witness :
  ∃ header rows row,
    save_results_to_csv mixed_results "out.csv" =
      Written "out.csv" (header :: rows) ∧
    rows !! 0%nat = Some row ∧
    ∀ j key value,
      header !! j = Some key →
      dict_lookup key (default [] (mixed_entries !! 0%nat)) = Some value →
      row !! j = Some
        match value with
        | PyList l => String.concat "; " (py_str <$> l)
        | PyDict _ => json_dumps value
        | PyNone => EmptyString
        | _ => py_str value
        end.
Proof.
  apply (export_cell_of_value mixed_results "out.csv" mixed_entries 0).
  - reflexivity.
  - reflexivity.
Defined.

(** The export of [mixed_entries], cell by cell. *)
Example export_mixed_entries :
  save_results_to_csv mixed_results "out.csv" =
    Written "out.csv"
      [["id"; "database_name"; "email"; "phone"; "raw_record"];
       ["7"; "Example"; "a; b; c"; EmptyString;
        "{" +:+ json_str "le_only" +:+ ": true, " +:+ json_str "n"
            +:+ ": [1, null]}"]].
Proof. by vm_compute. Qed.

(** ** Request execution *)

Lemma raise_for_status_None r :
  raise_for_status r = None ↔ ¬ (400 ≤ status_code r < 600).
Proof.
  unfold raise_for_status.
  destruct (Z.leb_spec 400 (status_code r)), (Z.ltb_spec (status_code r) 500),
           (Z.leb_spec 500 (status_code r)), (Z.ltb_spec (status_code r) 600);
    simpl; split; (done || lia).
Qed.

Lemma raise_for_status_Some r :
  400 ≤ status_code r < 600 →
  raise_for_status r = Some (HTTPError (status_line r) r).
Proof.
  intros Hs. unfold raise_for_status, status_line.
  destruct (Z.leb_spec 400 (status_code r)), (Z.ltb_spec (status_code r) 500),
           (Z.leb_spec 500 (status_code r)), (Z.ltb_spec (status_code r) 600);
    simpl; (done || lia).
Qed.

Lemma make_request_call_json self endpoint d :
  req_json (make_request_call self endpoint (Some d)) = PyDict d.
Proof. by destruct d. Qed.

Section request_execution.

Variable session_post : request → reply.
Variables (self : DeHashedClient) (endpoint : string) (data : option dict).
Variable log : list request.

(** Every submission sends one request, whatever comes back. *)
Lemma make_request_log :
  (_make_request session_post self endpoint data log).2 =
    (log ++ [make_request_call self endpoint data])%list.
Proof.
  unfold _make_request.
  by destruct (make_request_try _ _) as [[? ?|?|?]|?].
Qed.

(** C3 (amended): a submission sends exactly one request, and its outcome
    is settled by the reply alone.  When no response comes (connection
    failure, timeout, DNS failure), it raises the client's error with the
    message [API request failed: ] followed by the text of the exception,
    never an [API Error: ] message.  When a response comes with a status
    outside 400..599 (a 2xx status in particular) and a body that is no
    JSON, it raises the client's error with [API request failed: ] followed
    by the text of the decoder's error.  When the status is from 400 to 599
    it raises the client's error too.  The one failure it does not wrap is
    an exception of the decoder that is no [JSONDecodeError], which reaches
    the caller as it is.  It returns a value only when a response came whose
    status is outside 400..599 and whose body decodes to that value.  The
    text of the body is never read: two replies that differ in it alone have
    the same outcome. *)
Theorem make_request_failures :
  (_make_request session_post self endpoint data log).2 =
    (log ++ [make_request_call self endpoint data])%list
  ∧ (∀ e_str,
      session_post (make_request_call self endpoint data) = NoResponse e_str →
      (_make_request session_post self endpoint data log).1 =
        Raise (DeHashedAPIError ("API request failed: " +:+ e_str)))
  ∧ (∀ response e_str,
      session_post (make_request_call self endpoint data) = Responded response →
      200 ≤ status_code response < 300 →
      json response = Undecodable e_str →
      (_make_request session_post self endpoint data log).1 =
        Raise (DeHashedAPIError ("API request failed: " +:+ e_str)))
  ∧ (∀ v,
      (_make_request session_post self endpoint data log).1 = Return v →
      ∃ response,
        session_post (make_request_call self endpoint data) = Responded response
        ∧ ¬ (400 ≤ status_code response < 600)
        ∧ json response = Decoded v)
  ∧ (∀ response,
      session_post (make_request_call self endpoint data) = Responded response →
      if decide (400 ≤ status_code response < 600) then
        (_make_request session_post self endpoint data log).1 =
          Raise (DeHashedAPIError (http_error_msg (status_line response) response))
      else
        (_make_request session_post self endpoint data log).1 =
          match json response with
          | Decoded v => Return v
          | Undecodable e_str =>
              Raise (DeHashedAPIError ("API request failed: " +:+ e_str))
          | Crashed e => Raise e
          end)
  ∧ (∀ session_post' response response',
      session_post (make_request_call self endpoint data) = Responded response →
      session_post' (make_request_call self endpoint data) = Responded response' →
      status_code response = status_code response' →
      reason response = reason response' →
      url response = url response' →
      json response = json response' →
      _make_request session_post self endpoint data log
        = _make_request session_post' self endpoint data log).
Proof.
  split; [apply make_request_log |].
  unfold _make_request, make_request_try. split_and!.
  - by intros e_str ->.
  - intros response e_str -> Hs ->.
    assert (raise_for_status response = None) as ->; [| done].
    apply raise_for_status_None. lia.
  - intros v. destruct (session_post _) as [response|?]; [| done].
    destruct (raise_for_status response) as [[? ?|?|?]|] eqn:Hst; [done.. |].
    destruct (json response) as [v'|?|?] eqn:Hjson; [| done..].
    simpl. intros [= ->]. exists response.
    by rewrite <-raise_for_status_None.
  - intros response ->. case_decide as Hs.
    + by rewrite (raise_for_status_Some _ Hs).
    + apply raise_for_status_None in Hs. rewrite Hs.
      by destruct (json response).
  - intros session_post' response response' -> -> Hstatus Hreason Hurl Hjson.
    assert (raise_for_status response = None
            ∧ raise_for_status response' = None
            ∨ ∃ e_str,
                raise_for_status response = Some (HTTPError e_str response)
                ∧ raise_for_status response' = Some (HTTPError e_str response'))
      as [[-> ->]|(e_str & -> & ->)].
    { destruct (decide (400 ≤ status_code response < 600)) as [Hs|Hs].
      - right. exists (status_line response).
        rewrite (raise_for_status_Some _ Hs).
        rewrite (raise_for_status_Some response') by (by rewrite <-Hstatus).
        unfold status_line. by rewrite Hstatus, Hreason, Hurl.
      - left. split; apply raise_for_status_None; [done |].
        by rewrite <-Hstatus. }
    + by rewrite Hjson.
    + unfold http_error_msg. by rewrite Hjson.
Qed.

(** C4 (amended): a response with a status from 400 to 599 makes the
    submission raise the client's error, after the one request; the message
    is [API Error: ] followed by the [message] field of the body when the
    body is a JSON object with that field, else [API Error: ] followed by
    its [error] field, else [API request failed: ] followed by the status
    line (status code, reason and URL).  The status code is kept nowhere
    else. *)
Theorem make_request_http_error response :
  session_post (make_request_call self endpoint data) = Responded response →
  400 ≤ status_code response < 600 →
  ∃ msg,
    _make_request session_post self endpoint data log =
      (Raise (DeHashedAPIError msg),
       (log ++ [make_request_call self endpoint data])%list)
    ∧ match json response with
      | Decoded (PyDict error_details) =>
          match dict_lookup "message" error_details,
                dict_lookup "error" error_details with
          | Some m, _ => msg = "API Error: " +:+ py_str m
          | None, Some m => msg = "API Error: " +:+ py_str m
          | None, None => msg = "API request failed: " +:+ status_line response
          end
      | _ => msg = "API request failed: " +:+ status_line response
      end.
Proof.
  intros Hpost Hs. unfold _make_request, make_request_try.
  rewrite Hpost, (raise_for_status_Some _ Hs).
  eexists. split; [done |]. unfold http_error_msg.
  destruct (json response) as [[| | | | | |d]| |]; try done.
  by destruct (dict_lookup "message" d), (dict_lookup "error" d).
Qed.

End request_execution.

Lemma make_request_http_error_witness :
  ∃ msg,
    _make_request (always (Responded (invalid_query_response 400 "Bad Request")))
      sample_client "/search" (Some [("query", PyStr "email:")]) [] =
      (Raise (DeHashedAPIError msg),
       [make_request_call sample_client "/search"
          (Some [("query", PyStr "email:")])])
    ∧ msg = "API Error: invalid query".
Proof.
  apply (make_request_http_error
           (always (Responded (invalid_query_response 400 "Bad Request")))
           sample_client "/search" (Some [("query", PyStr "email:")]) []
           (invalid_query_response 400 "Bad Request")).
  - reflexivity.
  - simpl. lia.
Defined.

(** C3 as stated fails: for a 200 response with an HTML body the error
    raised has the decoder's message only; no leading part of the body
    occurs in it. *)
Lemma malformed_body_not_in_error :
  (_make_request (always (Responded html_response)) sample_client "/search"
     (Some [("query", PyStr "email:")]) []).1 =
    Raise (DeHashedAPIError
             "API request failed: Expecting value: line 1 column 1 (char 0)")
  ∧ carries_snippet (text html_response)
      "API request failed: Expecting value: line 1 column 1 (char 0)" = false.
Proof. split; by vm_compute. Qed.

(** C4 as stated fails: the message for the body
    [{"message": "invalid query"}] is [API Error: invalid query]; the same
    error is raised for status 400 and for status 503, so the status code is
    not kept; and a response with status 302 and that body is returned as a
    result, not raised. *)
Lemma http_error_message_prefixed :
  (_make_request (always (Responded (invalid_query_response 400 "Bad Request")))
     sample_client "/search" (Some [("query", PyStr "email:")]) []).1 =
    Raise (DeHashedAPIError "API Error: invalid query")
  ∧ (_make_request
       (always (Responded (invalid_query_response 503 "Service Unavailable")))
       sample_client "/search" (Some [("query", PyStr "email:")]) []).1 =
    Raise (DeHashedAPIError "API Error: invalid query")
  ∧ (_make_request (always (Responded (invalid_query_response 302 "Found")))
       sample_client "/search" (Some [("query", PyStr "email:")]) []).1 =
    Return (PyDict [("message", PyStr "invalid query")]).
Proof. split_and!; by vm_compute. Qed.

(** ** Client construction *)

(** C6: without an explicit key and without [DEHASHED_API_KEY] in the
    environment, construction raises the client's error about the missing
    key and the log of calls is left as it was: no call is made.  With an
    explicit key, construction succeeds with that key whatever the
    environment holds, and the key read from the environment is used only
    when no explicit key is given; construction never makes a call. *)
Theorem init_credential environ log :
  (environ "DEHASHED_API_KEY" = None →
     DeHashedClient_init environ None log =
       (Raise (DeHashedAPIError
          "API key must be provided or set in DEHASHED_API_KEY environment variable"),
        log))
  ∧ (∀ key, ∃ self,
       DeHashedClient_init environ (Some key) log = (Return self, log)
       ∧ api_key (config self) = key
       ∧ session_headers self !! 0%nat = Some ("Dehashed-Api-Key", key))
  ∧ (∀ key, environ "DEHASHED_API_KEY" = Some key → ∃ self,
       DeHashedClient_init environ None log = (Return self, log)
       ∧ api_key (config self) = key).
Proof.
  unfold DeHashedClient_init. split_and!.
  - by intros ->.
  - intros key. by eexists.
  - intros key ->. by eexists.
Qed.

(** Construction in an empty environment, without a key and with one. *)
Example init_samples :
  DeHashedClient_init (λ _, None) None [] =
    (Raise (DeHashedAPIError
       "API key must be provided or set in DEHASHED_API_KEY environment variable"),
     [])
  ∧ DeHashedClient_init (λ _, Some "from-env") (Some "secret") [] =
      (Return sample_client, []).
Proof. split; reflexivity. Qed.

(** ** Payloads *)

Section payloads.

Variable session_post : request → reply.
Variable self : DeHashedClient.
Variable log : list request.

(** The payload a method sends is the [data] it has built. *)
Lemma sent_make_request endpoint d :
  sent (_make_request session_post self endpoint (Some d) log) = Some (PyDict d).
Proof.
  unfold sent. rewrite make_request_log, last_snoc.
  change (Some (req_json (make_request_call self endpoint (Some d)))
          = Some (PyDict d)).
  by rewrite make_request_call_json.
Qed.

(** C10: the payload of a search has exactly the keys [query], [page],
    [size], [wildcard], [regex] and [de_dupe]; [query] is the caller's
    string; an argument the caller gives is sent as given, and one left out
    is sent as its default: page 1, size 10000, and [False] for the three
    flags.  The request goes to [/search]. *)
Theorem search_payload query page size wildcard regex de_dupe :
  ∃ data,
    sent (search session_post self query page size wildcard regex de_dupe log)
      = Some (PyDict data)
    ∧ req_url <$> last (search session_post self query page size wildcard
                          regex de_dupe log).2
      = Some (base_url (config self) +:+ "/search")
    ∧ dict_keys data = ["query"; "page"; "size"; "wildcard"; "regex"; "de_dupe"]
    ∧ dict_lookup "query" data = Some (PyStr query)
    ∧ dict_lookup "page" data = Some (PyInt (default 1 page))
    ∧ dict_lookup "size" data = Some (PyInt (default 10000 size))
    ∧ dict_lookup "wildcard" data = Some (PyBool (default false wildcard))
    ∧ dict_lookup "regex" data = Some (PyBool (default false regex))
    ∧ dict_lookup "de_dupe" data = Some (PyBool (default false de_dupe))
    ∧ (page = None → size = None → wildcard = None → regex = None →
       de_dupe = None →
       data = [("query", PyStr query); ("page", PyInt 1); ("size", PyInt 10000);
               ("wildcard", PyBool false); ("regex", PyBool false);
               ("de_dupe", PyBool false)]).
Proof.
  exists (search_data query page size wildcard regex de_dupe).
  unfold search. split; [apply sent_make_request |].
  split; [by rewrite make_request_log, last_snoc |].
  split_and!; try done. by intros -> -> -> -> ->.
Qed.

(** C5: when the caller gives no channels, or an empty list, the payloads of
    create-task and update-task have no [channels] key: they are exactly the
    required fields.  When the caller gives a non-empty list, the payloads
    have it under [channels], after the required fields. *)
Theorem monitoring_task_channels task_id task_type value channels :
  match channels with
  | None | Some [] =>
      sent (monitoring_create_task session_post self task_type value channels log)
        = Some (PyDict [("type", PyStr task_type); ("value", PyStr value)])
      ∧ sent (monitoring_update_task session_post self task_id task_type value
                channels log)
        = Some (PyDict [("id", PyStr task_id); ("type", PyStr task_type);
                        ("value", PyStr value)])
      ∧ dict_mem "channels" (monitoring_create_task_data task_type value channels)
        = false
      ∧ dict_mem "channels"
          (monitoring_update_task_data task_id task_type value channels)
        = false
  | Some (c :: cs) =>
      sent (monitoring_create_task session_post self task_type value channels log)
        = Some (PyDict [("type", PyStr task_type); ("value", PyStr value);
                        ("channels", PyList (PyStr <$> c :: cs))])
      ∧ sent (monitoring_update_task session_post self task_id task_type value
                channels log)
        = Some (PyDict [("id", PyStr task_id); ("type", PyStr task_type);
                        ("value", PyStr value);
                        ("channels", PyList (PyStr <$> c :: cs))])
  end.
Proof.
  unfold monitoring_create_task, monitoring_update_task.
  rewrite !sent_make_request.
  by destruct channels as [[|c cs]|].
Qed.

(** C7: the payload of a reverse WHOIS is the item [search_type] with the
    value [reverse-whois], followed by one item for each of [name],
    [organization], [email], [include] and [exclude] that the caller gives
    with a non-empty value, and by nothing else; with none of them given it
    is the one item [search_type]. *)
Theorem whois_reverse_payload name organization email include exclude :
  sent (whois_reverse session_post self None None None None None log)
    = Some (PyDict [("search_type", PyStr "reverse-whois")])
  ∧ sent (whois_reverse session_post self name organization email include
            exclude log)
    = Some (PyDict
        ([("search_type", PyStr "reverse-whois")]
         ++ item_if_given PyStr "name" name
         ++ item_if_given PyStr "organization" organization
         ++ item_if_given PyStr "email" email
         ++ item_if_given str_list "include" include
         ++ item_if_given str_list "exclude" exclude)%list).
Proof.
  unfold whois_reverse. rewrite !sent_make_request.
  split; [done |]. do 2 f_equal. unfold whois_reverse_data.
  destruct name as [[|? ?]|], organization as [[|? ?]|], email as [[|? ?]|],
           include as [[|? ?]|], exclude as [[|? ?]|]; reflexivity.
Qed.

(** An optional argument contributes an item only when it is given. *)
Lemma item_if_given_None {A} (to_py : A → pyval) k :
  item_if_given to_py k None = [].
Proof. done. Qed.

(** ** The balance probe *)

(** C8: [get_balance] never raises.  It makes the one search call for the
    probe and returns the [balance] field of the response when the search
    returns a JSON object ([None] when the object has no such field), and
    [None] when the search raises or returns anything else. *)
Theorem get_balance_never_raises :
  ∃ balance,
    get_balance session_post self log =
      (Return balance,
       (log ++ [make_request_call self "/search"
                  (Some (search_data "email:test@test.com" None (Some 1)
                           None None None))])%list)
    ∧ balance =
        match (search session_post self "email:test@test.com" None (Some 1)
                 None None None log).1 with
        | Return (PyDict response) =>
            default PyNone (dict_lookup "balance" response)
        | _ => PyNone
        end.
Proof.
  unfold get_balance, try_except, mbind, M_bind.
  pose proof (make_request_log session_post self "/search"
    (Some (search_data "email:test@test.com" None (Some 1) None None None)) log)
    as Hlog.
  unfold search in *.
  destruct (_make_request _ _ _ _ _) as [[response|e] log']; simpl in *; subst.
  - destruct response; by eexists.
  - by eexists.
Qed.

End payloads.

(** The probe on a response with a balance, on a response without one, and
    on a connection failure. *)
Example get_balance_samples :
  (get_balance (always (Responded balance_response)) sample_client []).1
    = Return (PyInt 42)
  ∧ (get_balance (always (Responded (invalid_query_response 200 "OK")))
       sample_client []).1 = Return PyNone
  ∧ (get_balance (always (NoResponse "Connection refused")) sample_client []).1
    = Return PyNone
  ∧ (get_balance (always (Responded (invalid_query_response 401 "Unauthorized")))
       sample_client []).1 = Return PyNone.
Proof. split_and!; by vm_compute. Qed.

(** * Further properties *)

(** ** The export: when a file is written *)

Lemma as_dicts_Return l entries :
  as_dicts l = Return entries → l = PyDict <$> entries.
Proof.
  unfold as_dicts. revert entries.
  induction l as [|v l IH]; intros entries; csimpl.
  - by intros [= <-].
  - destruct v; try done. simpl.
    destruct (mapM _ l) as [ds|e] eqn:Hl; simpl; [| done].
    intros [= <-]. csimpl. f_equal. by apply IH.
Qed.

Lemma result_bind_Raise {A B} (m : result A) (k : A → result B) e :
  m = Raise e → m ≫= k = Raise e.
Proof. by intros ->. Qed.

Lemma as_dicts_non_dict l v :
  v ∈ l → (∀ d, v ≠ PyDict d) → as_dicts l = Raise AttributeError.
Proof.
  unfold as_dicts. intros Hin Hv.
  induction l as [|x l IH]; [by apply elem_of_nil in Hin |]. csimpl.
  destruct x as [| | | | | |d]; try done. simpl.
  apply elem_of_cons in Hin as [->|Hin]; [by destruct (Hv d) |].
  apply result_bind_Raise, IH, Hin.
Qed.

Lemma iter_entries_Return entries es :
  truthy entries = true → iter_entries entries = Return es →
  entries = PyList (PyDict <$> es) ∧ es ≠ [].
Proof.
  intros Ht Hes. destruct entries as [| | | | |l|]; try done. simpl in Hes.
  apply as_dicts_Return in Hes as ->. split; [done |].
  intros ->. by vm_compute in Ht.
Qed.

(** X1: nothing is written, and nothing fails, exactly when the results have
    no [entries] key or the value under it is falsy (an empty list, [None],
    an empty string, zero, an empty dict). *)
Theorem export_nothing_iff results filename :
  save_results_to_csv results filename = NoEntries ↔
    dict_lookup "entries" results = None
    ∨ ∃ entries, dict_lookup "entries" results = Some entries
                 ∧ truthy entries = false.
Proof.
  unfold save_results_to_csv.
  destruct (dict_lookup "entries" results) as [entries|]; [| by split; auto].
  destruct (truthy entries) eqn:Ht; simpl.
  - split.
    + destruct (iter_entries entries); [| done].
      by destruct (write_csv _ _).
    + intros [?|(? & [= <-] & ?)]; congruence.
  - split; [| done]. intros _. right. by exists entries.
Qed.

Lemma save_results_to_csv_Written_iff results filename :
  (∃ rows, save_results_to_csv results filename = Written filename rows) ↔
    ∃ entries : list dict,
      dict_lookup "entries" results = Some (PyList (PyDict <$> entries))
      ∧ entries ≠ [].
Proof.
  split.
  - intros [rows Hw]. unfold save_results_to_csv in Hw.
    destruct (dict_lookup "entries" results) as [entries|]; [| done].
    destruct (truthy entries) eqn:Ht; [| done]. simpl in Hw.
    destruct (iter_entries entries) as [es|] eqn:Hes; [| done].
    exists es. by destruct (iter_entries_Return _ _ Ht Hes) as [-> ?].
  - intros (entries & Hres & Hne). eexists.
    by apply save_results_to_csv_Written.
Qed.

Lemma truthy_list_elem l (v : pyval) : v ∈ l → truthy (PyList l) = true.
Proof.
  intros Hin. simpl. rewrite bool_decide_false; [done |]. intros ->.
  by apply elem_of_nil in Hin.
Qed.

(** X3: when the list under [entries] has an element that is no dict, the
    export raises [AttributeError] and writes nothing. *)
Theorem export_fails_on_non_dict results filename l v :
  dict_lookup "entries" results = Some (PyList l) →
  v ∈ l → (∀ d, v ≠ PyDict d) →
  save_results_to_csv results filename = Failed AttributeError.
Proof.
  intros Hres Hin Hv. unfold save_results_to_csv.
  rewrite Hres, (truthy_list_elem l v Hin). cbn [negb iter_entries].
  by rewrite (as_dicts_non_dict l v).
Qed.

Lemma export_fails_on_non_dict_witness :
  save_results_to_csv
    [("entries", PyList [PyDict [("id", PyStr "1")]; PyStr "oops"])] "out.csv"
  = Failed AttributeError.
Proof.
  apply (export_fails_on_non_dict _ _
           [PyDict [("id", PyStr "1")]; PyStr "oops"] (PyStr "oops")).
  - reflexivity.
  - apply list_elem_of_In. right. left. reflexivity.
  - intros d. discriminate.
Defined.

Lemma elem_of_dict_keys_fill f k keys d :
  k ∈ dict_keys (fill f keys d) ↔ k ∈ keys ∨ k ∈ dict_keys d.
Proof.
  rewrite <-!dict_lookup_is_Some, dict_lookup_fill.
  case_decide; [| tauto]. split; [by left | by eauto].
Qed.

(** X4: the writer never rejects the row of an entry.  For any list of
    columns, the dict built for an entry has no key outside the columns, so
    [writerow] raises no [ValueError]; the row it writes has one cell per
    column, in the order of the columns: the flattened value of the field,
    or the empty string when the entry lacks it. *)
Theorem writerow_accepts_flattened sorted_fields entry :
  dict_keys (flatten_entry sorted_fields entry) ⊆ sorted_fields
  ∧ DictWriter_writerow sorted_fields (flatten_entry sorted_fields entry)
    = Return (flat_row sorted_fields entry)
  ∧ length (flat_row sorted_fields entry) = length sorted_fields.
Proof.
  assert (dict_keys (flatten_entry sorted_fields entry) ⊆ sorted_fields) as Hsub.
  { intros k [?|Hnil]%elem_of_dict_keys_fill; [done |].
    by apply elem_of_nil in Hnil. }
  split; [done |]. split; [| by unfold flat_row; rewrite length_fmap].
  unfold DictWriter_writerow. rewrite decide_True by done.
  f_equal. unfold flat_row. apply list_fmap_ext. intros i key Hkey.
  unfold flatten_entry. rewrite dict_lookup_fill, decide_True; [done |].
  by eapply list_elem_of_lookup_2.
Qed.

(** ** The export: the header *)

(** X5: the header of an export has no column twice, has a column for every
    field of every entry, and has no column beyond the two priority fields
    and the fields of the entries. *)
Theorem export_header_complete results filename (entries : list dict) :
  dict_lookup "entries" results = Some (PyList (PyDict <$> entries)) →
  entries ≠ [] →
  ∃ header rows,
    save_results_to_csv results filename = Written filename (header :: rows)
    ∧ NoDup header
    ∧ (∀ entry key, entry ∈ entries → key ∈ dict_keys entry → key ∈ header)
    ∧ (∀ key, key ∈ header →
         key = "id" ∨ key = "database_name"
         ∨ ∃ entry, entry ∈ entries ∧ key ∈ dict_keys entry).
Proof.
  intros Hres Hne. do 2 eexists.
  split; [by apply save_results_to_csv_Written |].
  split; [apply NoDup_sort_fields |]. split.
  - intros entry key He Hk. apply header_columns. right. by exists entry.
  - intros key [Hp|?]%header_columns; [| by right; right].
    unfold priority_fields in Hp.
    apply elem_of_cons in Hp as [->|Hp]; [by left |].
    apply list_elem_of_singleton in Hp as ->. by right; left.
Qed.

Lemma export_header_complete_witness :
  ∃ header rows,
    save_results_to_csv mixed_results "out.csv" =
      Written "out.csv" (header :: rows)
    ∧ NoDup header
    ∧ (∀ entry key, entry ∈ mixed_entries → key ∈ dict_keys entry →
         key ∈ header)
    ∧ (∀ key, key ∈ header →
         key = "id" ∨ key = "database_name"
         ∨ ∃ entry, entry ∈ mixed_entries ∧ key ∈ dict_keys entry).
Proof.
  apply (export_header_complete mixed_results "out.csv" mixed_entries).
  - reflexivity.
  - discriminate.
Defined.

(** X6: the header depends only on which field names occur in the entries:
    two exports whose entries have the same field names, in whatever order
    and however spread over the entries, have the same header. *)
Theorem export_header_same_fields results1 results2 filename
    (entries1 entries2 : list dict) :
  dict_lookup "entries" results1 = Some (PyList (PyDict <$> entries1)) →
  dict_lookup "entries" results2 = Some (PyList (PyDict <$> entries2)) →
  entries1 ≠ [] → entries2 ≠ [] →
  (∀ key, (∃ entry, entry ∈ entries1 ∧ key ∈ dict_keys entry)
          ↔ (∃ entry, entry ∈ entries2 ∧ key ∈ dict_keys entry)) →
  ∃ header rows1 rows2,
    save_results_to_csv results1 filename = Written filename (header :: rows1)
    ∧ save_results_to_csv results2 filename = Written filename (header :: rows2).
Proof.
  intros Hres1 Hres2 Hne1 Hne2 Hkeys.
  exists (sort_fields (collect_fieldnames entries1)). do 2 eexists.
  split; [by apply save_results_to_csv_Written |].
  rewrite (save_results_to_csv_Written results2 _ entries2) by done.
  assert (collect_fieldnames entries1 = collect_fieldnames entries2) as ->;
    [| done].
  apply set_eq. intros key. by rewrite !elem_of_collect_fieldnames.
Qed.

Lemma export_header_same_fields_witness :
  ∃ header rows1 rows2,
    save_results_to_csv ragged_results "out.csv" =
      Written "out.csv" (header :: rows1)
    ∧ save_results_to_csv
        [("entries", PyList (PyDict <$> reverse ragged_entries))] "out.csv" =
      Written "out.csv" (header :: rows2).
Proof.
  apply (export_header_same_fields ragged_results
           [("entries", PyList (PyDict <$> reverse ragged_entries))] "out.csv"
           ragged_entries (reverse ragged_entries)).
  - reflexivity.
  - reflexivity.
  - discriminate.
  - discriminate.
  - intros key. split; intros (entry & He & Hk); exists entry;
      (split; [| done]); by apply elem_of_reverse.
Defined.

(** X7: the header is [id], [database_name], then the other field names of
    the entries except [raw_record], each once and in ascending order of
    code points, then [raw_record] when some entry has it and only then. *)
Theorem export_header_order results filename (entries : list dict) :
  dict_lookup "entries" results = Some (PyList (PyDict <$> entries)) →
  entries ≠ [] →
  ∃ others rows,
    save_results_to_csv results filename =
      Written filename
        (("id" :: "database_name" :: others ++
          if decide (Exists (λ entry, "raw_record" ∈ dict_keys entry) entries)
          then ["raw_record"] else [])%list :: rows)
    ∧ StronglySorted String.le others
    ∧ NoDup others
    ∧ ∀ key, key ∈ others ↔
        (∃ entry, entry ∈ entries ∧ key ∈ dict_keys entry)
        ∧ key ≠ "id" ∧ key ≠ "database_name" ∧ key ≠ "raw_record".
Proof.
  intros Hres Hne.
  destruct (header_order (collect_fieldnames entries))
    as (others & Hhd & Hsorted & Hnd & Hin).
  exists others. eexists. split; [| split_and!; try done].
  - rewrite (save_results_to_csv_Written results _ entries), Hhd by done.
    do 4 f_equal.
    destruct (decide ("raw_record" ∈ collect_fieldnames entries)) as [Hr|Hr],
             (decide (Exists (λ entry, "raw_record" ∈ dict_keys entry) entries))
               as [Hr'|Hr'];
      try done; rewrite elem_of_collect_fieldnames, <-Exists_exists in Hr; done.
  - intros key. by rewrite Hin, elem_of_collect_fieldnames.
Qed.

Lemma export_header_order_witness :
  ∃ others rows,
    save_results_to_csv mixed_results "out.csv" =
      Written "out.csv"
        (("id" :: "database_name" :: others ++
          if decide (Exists (λ entry, "raw_record" ∈ dict_keys entry)
                            mixed_entries)
          then ["raw_record"] else [])%list :: rows)
    ∧ StronglySorted String.le others
    ∧ NoDup others
    ∧ ∀ key, key ∈ others ↔
        (∃ entry, entry ∈ mixed_entries ∧ key ∈ dict_keys entry)
        ∧ key ≠ "id" ∧ key ≠ "database_name" ∧ key ≠ "raw_record".
Proof.
  apply (export_header_order mixed_results "out.csv" mixed_entries).
  - reflexivity.
  - discriminate.
Defined.

(** ** Request execution: success, and what can be raised *)

(** X8: a response whose status is outside 400..599 and whose body decodes
    is returned to the caller as decoded, after the one request. *)
Theorem make_request_success session_post self endpoint data log response v :
  session_post (make_request_call self endpoint data) = Responded response →
  ¬ (400 ≤ status_code response < 600) →
  json response = Decoded v →
  _make_request session_post self endpoint data log =
    (Return v, (log ++ [make_request_call self endpoint data])%list).
Proof.
  intros Hpost Hs Hjson. unfold _make_request, make_request_try.
  rewrite Hpost. apply raise_for_status_None in Hs. by rewrite Hs, Hjson.
Qed.

Lemma make_request_success_witness :
  _make_request (always (Responded balance_response)) sample_client "/search"
    (Some [("query", PyStr "email:")]) [] =
    (Return (PyDict [("balance", PyInt 42); ("entries", PyList [])]),
     ([] ++ [make_request_call sample_client "/search"
               (Some [("query", PyStr "email:")])])%list).
Proof.
  apply (make_request_success (always (Responded balance_response))
           sample_client "/search" (Some [("query", PyStr "email:")]) []
           balance_response).
  - reflexivity.
  - simpl. lia.
  - reflexivity.
Defined.

(** X9: what a submission raises is the client's own error, with a message
    that begins with [API Error: ] or with [API request failed: ], in every
    case but one: when the response has a status outside 400..599 and the
    decoder of its body raises an exception that is no [JSONDecodeError],
    that exception reaches the caller as it is. *)
Theorem make_request_raises_api_error session_post self endpoint data log e :
  (_make_request session_post self endpoint data log).1 = Raise e →
  (∃ detail,
     e = DeHashedAPIError ("API Error: " +:+ detail)
     ∨ e = DeHashedAPIError ("API request failed: " +:+ detail))
  ∨ ∃ response,
      session_post (make_request_call self endpoint data) = Responded response
      ∧ ¬ (400 ≤ status_code response < 600)
      ∧ json response = Crashed e.
Proof.
  unfold _make_request, make_request_try.
  destruct (session_post _) as [response|e_str]; simpl;
    [| intros [= <-]; left; by eexists; right].
  destruct (raise_for_status response) as [[e_str response'|e_str|e']|] eqn:Hst;
    simpl.
  - intros [= <-]. left. unfold http_error_msg.
    destruct (json response') as [[| | | | | |d]| |]; try by eexists; right.
    destruct (dict_lookup "message" d); [by eexists; left |].
    destruct (dict_lookup "error" d); [by eexists; left | by eexists; right].
  - intros [= <-]. left. by eexists; right.
  - revert Hst. unfold raise_for_status. by repeat case_match.
  - apply raise_for_status_None in Hst.
    destruct (json response) as [v|e_str|e'] eqn:Hjson; simpl; [done | |].
    + intros [= <-]. left. by eexists; right.
    + intros [= <-]. right. by exists response.
Qed.

Lemma make_request_raises_api_error_witness :
  (∃ detail,
     RecursionError = DeHashedAPIError ("API Error: " +:+ detail)
     ∨ RecursionError = DeHashedAPIError ("API request failed: " +:+ detail))
  ∨ ∃ response,
      always (Responded nested_response)
        (make_request_call sample_client "/search" None) = Responded response
      ∧ ¬ (400 ≤ status_code response < 600)
      ∧ json response = Crashed RecursionError.
Proof.
  apply (make_request_raises_api_error (always (Responded nested_response))
           sample_client "/search" None []).
  reflexivity.
Defined.

(** X10: every request of a client that [__init__] has built goes to the
    given endpoint under [https://api.dehashed.com/v2], with a timeout of 30
    and with the key in the [Dehashed-Api-Key] header: the explicit key, or
    else the key of the environment.  The body is the data given, and the
    empty object when there is no data or the data is empty.  Building the
    client sends nothing. *)
Theorem client_requests_carry_key environ session_post api_key self log log' :
  DeHashedClient_init environ api_key log = (Return self, log') →
  ∃ key,
    resolve_key environ api_key = Some key
    ∧ log' = log
    ∧ ∀ endpoint data log,
        ∃ req,
          (_make_request session_post self endpoint data log).2
            = (log ++ [req])%list
          ∧ req_url req = "https://api.dehashed.com/v2" +:+ endpoint
          ∧ req_headers req = [("Dehashed-Api-Key", key);
                               ("Content-Type", "application/json")]
          ∧ req_timeout req = 30
          ∧ req_json req = PyDict (default [] data).
Proof.
  intros Hinit.
  assert (∃ key, resolve_key environ api_key = Some key ∧ log' = log
                 ∧ self = new_client key) as (key & Hkey & -> & ->).
  { unfold resolve_key. revert Hinit.
    cbv [DeHashedClient_init mbind M_bind mret M_ret raise].
    destruct api_key as [k|]; [| destruct (environ _) as [k|]];
      intros [= <- <-]; by exists k. }
  exists key. split; [done |]. split; [done |].
  intros endpoint data log0. eexists.
  split; [apply make_request_log |]. split_and!; try done.
  by destruct data as [[|]|].
Qed.

Lemma client_requests_carry_key_witness :
  ∃ key,
    resolve_key (λ _, Some "from-env") None = Some key
    ∧ @nil request = []
    ∧ ∀ endpoint data log,
        ∃ req,
          (_make_request (always (NoResponse "Connection refused"))
             (new_client "from-env") endpoint data log).2
            = (log ++ [req])%list
          ∧ req_url req = "https://api.dehashed.com/v2" +:+ endpoint
          ∧ req_headers req = [("Dehashed-Api-Key", key);
                               ("Content-Type", "application/json")]
          ∧ req_timeout req = 30
          ∧ req_json req = PyDict (default [] data).
Proof.
  apply (client_requests_carry_key (λ _, Some "from-env")
           (always (NoResponse "Connection refused")) None
           (new_client "from-env") [] []).
  reflexivity.
Defined.

(** ** The other methods of the client *)

Section catalog.

Variable session_post : request → reply.
Variable self : DeHashedClient.
Variable log : list request.

Lemma posts_make_request endpoint d :
  posts (_make_request session_post self endpoint (Some d) log) log
    (base_url (config self) +:+ endpoint) (PyDict d).
Proof.
  eexists. split; [apply make_request_log |]. split; [done |].
  apply make_request_call_json.
Qed.

(** X12: the password search and the monitoring methods each send one
    request: to their own endpoint, with the required fields as the body.
    The two update methods share [/monitoring/update-task]; the listing
    methods send page 1 unless a page is given; and [get-channels], which
    has no field, sends the empty object. *)
Theorem monitoring_methods_post password_hash task_id active page report_id
    channel_type value :
  let api := base_url (config self) in
  posts (search_password session_post self password_hash log) log
    (api +:+ "/search-password") (PyDict [("hash", PyStr password_hash)])
  ∧ posts (monitoring_update_task_status session_post self task_id active log)
      log (api +:+ "/monitoring/update-task")
      (PyDict [("id", PyStr task_id); ("active", PyBool active)])
  ∧ posts (monitoring_update_task session_post self task_id channel_type value
             None log)
      log (api +:+ "/monitoring/update-task")
      (PyDict [("id", PyStr task_id); ("type", PyStr channel_type);
               ("value", PyStr value)])
  ∧ posts (monitoring_delete_task session_post self task_id log) log
      (api +:+ "/monitoring/delete-task") (PyDict [("id", PyStr task_id)])
  ∧ posts (monitoring_get_tasks session_post self page log) log
      (api +:+ "/monitoring/get-tasks") (PyDict [("page", PyInt (default 1 page))])
  ∧ posts (monitoring_get_task session_post self task_id log) log
      (api +:+ "/monitoring/get-task") (PyDict [("id", PyStr task_id)])
  ∧ posts (monitoring_get_reports session_post self page log) log
      (api +:+ "/monitoring/get-reports")
      (PyDict [("page", PyInt (default 1 page))])
  ∧ posts (monitoring_get_report session_post self report_id log) log
      (api +:+ "/monitoring/get-report") (PyDict [("id", PyStr report_id)])
  ∧ posts (monitoring_get_channels session_post self log) log
      (api +:+ "/monitoring/get-channels") (PyDict [])
  ∧ posts (monitoring_update_channel session_post self channel_type value log)
      log (api +:+ "/monitoring/update-channel")
      (PyDict [("type", PyStr channel_type); ("value", PyStr value)])
  ∧ posts (monitoring_delete_channel session_post self channel_type log) log
      (api +:+ "/monitoring/delete-channel")
      (PyDict [("channel", PyStr channel_type)]).
Proof. simpl. split_and!; apply posts_make_request. Qed.

(** X13: the six WHOIS methods with one argument each send one request to
    [/whois/search], with the argument under [domain] (also an IP address, an
    MX server or a name server) and a [search_type] of their own; with that
    of the reverse WHOIS, the seven search types are pairwise different. *)
Theorem whois_methods_post domain :
  let url := base_url (config self) +:+ "/whois/search" in
  let body search_type :=
    PyDict [("search_type", PyStr search_type); ("domain", PyStr domain)] in
  posts (whois_search session_post self domain log) log url (body "whois")
  ∧ posts (whois_history session_post self domain log) log url
      (body "whois-history")
  ∧ posts (whois_ip session_post self domain log) log url (body "reverse-ip")
  ∧ posts (whois_mx session_post self domain log) log url (body "reverse-mx")
  ∧ posts (whois_ns session_post self domain log) log url (body "reverse-ns")
  ∧ posts (whois_subdomain_scan session_post self domain log) log url
      (body "subdomain-scan")
  ∧ posts (whois_reverse session_post self None None None None None log) log
      url (PyDict [("search_type", PyStr "reverse-whois")])
  ∧ NoDup ["whois"; "whois-history"; "reverse-whois"; "reverse-ip";
           "reverse-mx"; "reverse-ns"; "subdomain-scan"].
Proof.
  simpl. split_and!; try apply posts_make_request.
  by apply (bool_decide_unpack _).
Qed.

End catalog.

(** ** The command line: sessions *)

Lemma init_resolve environ api_key log :
  DeHashedClient_init environ api_key log =
    match resolve_key environ api_key with
    | Some key => (Return (new_client key), log)
    | None => (Raise (DeHashedAPIError missing_key_message), log)
    end.
Proof.
  unfold resolve_key. cbv [DeHashedClient_init mbind M_bind mret M_ret raise].
  destruct api_key as [k|]; [done |]. by destruct (environ _).
Qed.

Lemma with_client_eq {A} environ api_key (body : DeHashedClient → IO A) w :
  with_client environ api_key body w =
    match resolve_key environ api_key with
    | None => (Thrown (PyExn (DeHashedAPIError missing_key_message)), w)
    | Some key =>
        let out := body (new_client key)
                     (World (calls w) (stdout w) (stderr w) (files w)
                            (S (opened w)) (closed w)) in
        (out.1, World (calls out.2) (stdout out.2) (stderr out.2) (files out.2)
                      (opened out.2) (S (closed out.2)))
    end.
Proof.
  unfold with_client, call. rewrite init_resolve.
  destruct (resolve_key environ api_key) as [key|]; [| by destruct w].
  simpl. by destruct (body _ _).
Qed.

Section keeps_sessions.

Context {A B : Type}.

Lemma keeps_ret (a : A) : keeps_sessions (mret a : IO A).
Proof. by intros w. Qed.

Lemma keeps_throw e : keeps_sessions (throw e : IO A).
Proof. by intros w. Qed.

Lemma keeps_call (m : M A) : keeps_sessions (call m).
Proof. intros w. unfold call. by destruct (m _) as [[?|?] ?]. Qed.

Lemma keeps_bind (m : IO A) (f : A → IO B) :
  keeps_sessions m → (∀ a, keeps_sessions (f a)) → keeps_sessions (m ≫= f).
Proof.
  intros Hm Hf w. unfold mbind, IO_bind.
  destruct (Hm w) as [Ho Hc]. destruct (m w) as [[a|e] w']; simpl in *.
  - destruct (Hf a w') as [Ho' Hc']. by rewrite Ho', Hc'.
  - done.
Qed.

End keeps_sessions.

Lemma keeps_print s : keeps_sessions (print s).
Proof. by intros w. Qed.

Lemma keeps_write_file writable filename content :
  keeps_sessions (write_file writable filename content).
Proof. intros w. unfold write_file. by destruct (writable filename). Qed.

Create HintDb sessions.
#[local] Hint Resolve keeps_ret keeps_throw keeps_call keeps_print
  keeps_write_file : sessions.
#[local] Hint Extern 2 (keeps_sessions (_ ≫= _)) =>
  apply keeps_bind; [| intros ?] : sessions.

Lemma keeps_pretty_print_results results :
  keeps_sessions (pretty_print_results results).
Proof. apply keeps_print. Qed.

Lemma keeps_save_results_to_file writable results filename :
  keeps_sessions (save_results_to_file writable results filename).
Proof. unfold save_results_to_file. auto with sessions. Qed.

Lemma keeps_save_results_to_csv_io writable results filename :
  keeps_sessions (save_results_to_csv_io writable results filename).
Proof.
  unfold save_results_to_csv_io, save_results_to_csv_dict.
  destruct results as [| | | |s|l|d]; auto with sessions.
  - destruct (occurs _ _); auto with sessions.
  - destruct (existsb _ _); auto with sessions.
  - destruct (save_results_to_csv d filename); auto 6 with sessions.
Qed.

#[local] Hint Resolve keeps_pretty_print_results keeps_save_results_to_file
  keeps_save_results_to_csv_io : sessions.

Lemma keeps_output_results writable results output format :
  keeps_sessions (output_results writable results output format).
Proof.
  unfold output_results.
  destruct (given output); [| auto with sessions].
  case_bool_decide; auto with sessions.
Qed.

#[local] Hint Resolve keeps_output_results : sessions.

Lemma with_client_sessions {A} environ api_key (body : DeHashedClient → IO A) w :
  (∀ client, keeps_sessions (body client)) →
  opened (with_client environ api_key body w).2
    = (opened w + sessions_of environ (Some api_key))%nat
  ∧ closed (with_client environ api_key body w).2
    = (closed w + sessions_of environ (Some api_key))%nat.
Proof.
  intros Hbody. rewrite with_client_eq. unfold sessions_of.
  destruct (resolve_key environ api_key) as [key|].
  - simpl.
    destruct (Hbody (new_client key)
                (World (calls w) (stdout w) (stderr w) (files w)
                       (S (opened w)) (closed w))) as [-> ->].
    simpl. lia.
  - simpl. lia.
Qed.

Lemma run_func_sessions environ session_post writable inv w :
  opened (run_func environ session_post writable inv w).2
    = (opened w + sessions_of environ (inv_api_key inv))%nat
  ∧ closed (run_func environ session_post writable inv w).2
    = (closed w + sessions_of environ (inv_api_key inv))%nat.
Proof.
  destruct inv as [| |args|args|args|args|args|args|api_key]; simpl;
    try lia; apply with_client_sessions; intros client.
  - auto with sessions.
  - auto with sessions.
  - auto with sessions.
  - apply keeps_bind; [auto with sessions | intros tasks].
    destruct (given _); auto with sessions.
  - auto with sessions.
  - repeat case_decide; auto with sessions;
      (apply keeps_bind; [auto with sessions | intros results];
       destruct (given _); auto with sessions).
  - auto with sessions.
Qed.

(** X14: whatever is asked and whatever the service replies, a run of the
    command line creates at most one session and closes each session it has
    created, also when the command ends in an exception; it creates one
    exactly when a command function runs and a key is at hand. *)
Theorem main_closes_session environ session_post writable inv w :
  opened (main environ session_post writable inv w).2
    = (opened w + sessions_of environ (inv_api_key inv))%nat
  ∧ closed (main environ session_post writable inv w).2
    = (closed w + sessions_of environ (inv_api_key inv))%nat.
Proof.
  pose proof (run_func_sessions environ session_post writable inv w) as Hrun.
  unfold main.
  destruct inv; try (simpl in *; lia);
    destruct (run_func _ _ _ _ _) as [[[]|[[]|]] w']; simpl in *; lia.
Qed.

(** ** The command line: keys and failures *)

Ltac unfold_cmd :=
  unfold main, run_func, cmd_search, cmd_search_password,
    cmd_monitoring_create_task, cmd_monitoring_get_tasks,
    cmd_monitoring_delete_task, cmd_whois, cmd_balance.

(** X15: when a command is given but no key, neither on the command line
    nor in the environment, the run ends with exit status 1 after the one
    line [Error: ] and the message of the missing key on the standard error;
    nothing is sent, printed or written, and no session is created. *)
Theorem main_without_key environ session_post writable inv api_key w :
  inv_api_key inv = Some api_key →
  resolve_key environ api_key = None →
  main environ session_post writable inv w =
    (Exit 1,
     World (calls w) (stdout w)
           (stderr w ++ ["Error: " +:+ missing_key_message])
           (files w) (opened w) (closed w)).
Proof.
  intros Hinv Hkey.
  destruct inv; try done; injection Hinv as <-; unfold_cmd;
    by rewrite with_client_eq, Hkey.
Qed.

Lemma main_without_key_witness :
  main (λ _, None) (always (Responded balance_response)) (λ _, true)
    (Balance None) empty_world =
    (Exit 1,
     World (calls empty_world) (stdout empty_world)
           (stderr empty_world ++ ["Error: " +:+ missing_key_message])
           (files empty_world) (opened empty_world) (closed empty_world)).
Proof.
  apply (main_without_key (λ _, None) (always (Responded balance_response))
           (λ _, true) (Balance None) None empty_world).
  - reflexivity.
  - reflexivity.
Defined.

Lemma make_request_no_response session_post self endpoint data log e_str :
  (∀ req, session_post req = NoResponse e_str) →
  _make_request session_post self endpoint data log =
    (Raise (DeHashedAPIError ("API request failed: " +:+ e_str)),
     (log ++ [make_request_call self endpoint data])%list).
Proof.
  intros Hpost. unfold _make_request, make_request_try. by rewrite Hpost.
Qed.

(** X16: when no response comes to any request, every command that calls
    the service and uses the result ends with exit status 1 after the one
    request, with [Error: API request failed: ] and the text of the failure
    on the standard error; nothing is printed or written, and the session is
    closed. *)
Theorem main_no_response environ session_post writable inv api_key key w e_str :
  inv_api_key inv = Some api_key →
  resolve_key environ api_key = Some key →
  sends_request inv = true →
  (∀ req, session_post req = NoResponse e_str) →
  ∃ req,
    main environ session_post writable inv w =
      (Exit 1,
       World (calls w ++ [req]) (stdout w)
             (stderr w ++ ["Error: API request failed: " +:+ e_str])
             (files w) (S (opened w)) (S (closed w))).
Proof.
  intros Hinv Hkey Hsends Hpost.
  destruct inv as [| |args|args|args|args|args|args|?]; try done;
    injection Hinv as <-; unfold_cmd;
    rewrite with_client_eq, Hkey;
    cbv [mbind IO_bind call search search_password monitoring_create_task
         monitoring_get_tasks monitoring_delete_task];
    try (rewrite (make_request_no_response _ _ _ _ _ e_str Hpost); simpl;
         by eexists).
  apply bool_decide_eq_true_1 in Hsends. unfold whois_types in Hsends.
  repeat (apply elem_of_cons in Hsends as [->|Hsends]);
    [.. | by apply elem_of_nil in Hsends];
    cbv [decide decide_rel]; simpl;
    cbv [mbind IO_bind call whois_call whois_reverse];
    rewrite (make_request_no_response _ _ _ _ _ e_str Hpost); simpl;
    by eexists.
Qed.

Lemma main_no_response_witness :
  ∃ req,
    main (λ _, None) (always (NoResponse "Connection refused")) (λ _, true)
      (DeleteTask {| d_api_key := Some "secret"; d_task_id := "t1" |})
      empty_world =
      (Exit 1,
       World (calls empty_world ++ [req]) (stdout empty_world)
             (stderr empty_world
              ++ ["Error: API request failed: " +:+ "Connection refused"])
             (files empty_world) (S (opened empty_world))
             (S (closed empty_world))).
Proof.
  apply (main_no_response (λ _, None) (always (NoResponse "Connection refused"))
           (λ _, true)
           (DeleteTask {| d_api_key := Some "secret"; d_task_id := "t1" |})
           (Some "secret") "secret" empty_world "Connection refused").
  - reflexivity.
  - reflexivity.
  - reflexivity.
  - intros req. reflexivity.
Defined.

(** ** The command line: the balance *)

Lemma make_request_Return session_post self endpoint data log v :
  (_make_request session_post self endpoint data log).1 = Return v →
  ∃ response,
    session_post (make_request_call self endpoint data) = Responded response
    ∧ json response = Decoded v.
Proof.
  unfold _make_request, make_request_try.
  destruct (session_post _) as [response|?]; [| done].
  destruct (raise_for_status response) as [[? ?|?|?]|]; [done.. |].
  destruct (json response) as [v'|?|?] eqn:Hjson; [| done..].
  simpl. intros [= ->]. by exists response.
Qed.

Lemma get_balance_eq session_post self log :
  get_balance session_post self log =
    (Return
       match (search session_post self "email:test@test.com" None (Some 1)
                None None None log).1 with
       | Return (PyDict response) => dict_get "balance" response
       | _ => PyNone
       end,
     (log ++ [make_request_call self "/search"
                (Some (search_data "email:test@test.com" None (Some 1)
                         None None None))])%list).
Proof.
  unfold get_balance, try_except, mbind, M_bind, search.
  pose proof (make_request_log session_post self "/search"
    (Some (search_data "email:test@test.com" None (Some 1) None None None)) log)
    as Hlog.
  destruct (_make_request _ _ _ _ _) as [[response|e] log']; simpl in *; subst;
    [| done].
  by destruct response.
Qed.

(** X17: with a key at hand, the balance command never fails: it sends the
    one probe, prints the one line [Account balance: ... credits] and
    returns.  The balance printed is [None] unless the probe was answered by
    a JSON object with a [balance] field, whose value is then printed. *)
Theorem main_balance environ session_post writable api_key key w :
  resolve_key environ api_key = Some key →
  ∃ balance,
    main environ session_post writable (Balance api_key) w =
      (Returned,
       World (calls w ++ [make_request_call (new_client key) "/search"
                            (Some (search_data "email:test@test.com" None
                                     (Some 1) None None None))])
             (stdout w ++ [Printed ("Account balance: " +:+ py_str balance
                                    +:+ " credits")])
             (stderr w) (files w) (S (opened w)) (S (closed w)))
    ∧ (balance = PyNone
       ∨ ∃ response d,
           session_post (make_request_call (new_client key) "/search"
                           (Some (search_data "email:test@test.com" None
                                    (Some 1) None None None)))
             = Responded response
           ∧ json response = Decoded (PyDict d)
           ∧ dict_lookup "balance" d = Some balance).
Proof.
  intros Hkey. unfold_cmd. rewrite with_client_eq, Hkey.
  cbv [mbind IO_bind call]. rewrite get_balance_eq. simpl.
  eexists. split; [done |]. unfold search.
  destruct (_make_request _ _ _ _ _).1 as [[| | | | | |d]|] eqn:Hreq; auto.
  unfold dict_get. destruct (dict_lookup "balance" d) as [v|] eqn:Hb; auto.
  right. apply make_request_Return in Hreq as (response & ? & ?).
  by exists response, d.
Qed.

Lemma main_balance_witness :
  ∃ balance,
    main (λ _, None) (always (Responded balance_response)) (λ _, true)
      (Balance (Some "secret")) empty_world =
      (Returned,
       World (calls empty_world
              ++ [make_request_call (new_client "secret") "/search"
                    (Some (search_data "email:test@test.com" None (Some 1)
                             None None None))])
             (stdout empty_world
              ++ [Printed ("Account balance: " +:+ py_str balance
                           +:+ " credits")])
             (stderr empty_world) (files empty_world)
             (S (opened empty_world)) (S (closed empty_world)))
    ∧ (balance = PyNone
       ∨ ∃ response d,
           always (Responded balance_response)
             (make_request_call (new_client "secret") "/search"
                (Some (search_data "email:test@test.com" None (Some 1)
                         None None None)))
             = Responded response
           ∧ json response = Decoded (PyDict d)
           ∧ dict_lookup "balance" d = Some balance).
Proof.
  apply (main_balance (λ _, None) (always (Responded balance_response))
           (λ _, true) (Some "secret") "secret" empty_world).
  reflexivity.
Defined.

(** ** The command line: channels *)

Lemma split_not_nil sep s : split sep s ≠ [].
Proof.
  destruct s as [|c s]; [done |]. simpl.
  case_decide; [done |]. by destruct (split sep s).
Qed.

Lemma concat_cons_cons sep x y l :
  String.concat sep (x :: y :: l) = x +:+ sep +:+ String.concat sep (y :: l).
Proof. done. Qed.

Lemma concat_split sep s : String.concat (char sep) (split sep s) = s.
Proof.
  induction s as [|c s IH]; [done |]. simpl.
  pose proof (split_not_nil sep s) as Hne.
  destruct (split sep s) as [|part parts]; [done |].
  case_decide as Hc.
  - subst c. by rewrite concat_cons_cons, IH.
  - destruct parts as [|part' parts].
    + simpl in *. by rewrite IH.
    + rewrite concat_cons_cons. rewrite concat_cons_cons in IH.
      by rewrite <-IH.
Qed.

Lemma split_no_sep sep s :
  Forall (λ part, string_mem sep part = false) (split sep s).
Proof.
  induction s as [|c s IH]; [by repeat constructor |]. simpl.
  case_decide as Hc; [by constructor |].
  assert (∀ part, string_mem sep part = false →
                  string_mem sep (String c part) = false) as Hcons.
  { intros part Hpart. simpl. rewrite Hpart.
    by rewrite bool_decide_false by congruence. }
  destruct (split sep s) as [|part parts].
  - repeat constructor. by apply Hcons.
  - inv IH. constructor; [by apply Hcons | done].
Qed.

(** X18: the create-task command sends the type and the value, and the
    channels only when [--channels] has a non-empty text: the list sent is
    then the text cut at its commas, never empty, with no comma left in a
    part, and joining the parts with commas gives the text back. *)
Theorem create_task_channels environ session_post args key w :
  resolve_key environ (c_api_key args) = Some key →
  ∃ req data,
    calls (cmd_monitoring_create_task environ session_post args w).2
      = (calls w ++ [req])%list
    ∧ req_url req = "https://api.dehashed.com/v2/monitoring/create-task"
    ∧ req_json req = PyDict data
    ∧ if given (c_channels args) then
        ∃ parts,
          data = [("type", PyStr (c_type args)); ("value", PyStr (c_value args));
                  ("channels", PyList (PyStr <$> parts))]
          ∧ parts ≠ []
          ∧ Forall (λ part, string_mem "," part = false) parts
          ∧ c_channels args = Some (String.concat "," parts)
      else
        data = [("type", PyStr (c_type args)); ("value", PyStr (c_value args))].
Proof.
  intros Hkey. unfold cmd_monitoring_create_task.
  rewrite with_client_eq, Hkey. cbv [mbind IO_bind call].
  unfold monitoring_create_task.
  pose proof (make_request_log session_post (new_client key)
    "/monitoring/create-task"
    (Some (monitoring_create_task_data (c_type args) (c_value args)
             (split_channels (c_channels args)))) (calls w)) as Hlog.
  exists (make_request_call (new_client key) "/monitoring/create-task"
            (Some (monitoring_create_task_data (c_type args) (c_value args)
                     (split_channels (c_channels args))))).
  eexists. split.
  { destruct (_make_request _ _ _ _ _) as [[?|?] ?]; simpl in *; by subst. }
  split; [done |]. split; [apply make_request_call_json |].
  unfold split_channels.
  destruct (c_channels args) as [text|]; [| done]. simpl.
  destruct (bool_decide (text = EmptyString)) eqn:Ht; simpl; [done |].
  pose proof (split_not_nil "," text) as Hne.
  exists (split "," text). split_and!; try done.
  - unfold monitoring_create_task_data, set_if_given, str_list. simpl.
    destruct (split "," text); [done |]. reflexivity.
  - apply split_no_sep.
  - f_equal. symmetry. apply (concat_split ","%char).
Qed.

Lemma create_task_channels_witness :
  ∃ req data,
    calls (cmd_monitoring_create_task (λ _, None)
             (always (NoResponse "Connection refused"))
             {| c_api_key := Some "secret"; c_type := "email";
                c_value := "a@example.com"; c_channels := Some "email,webhook" |}
             empty_world).2
      = (calls empty_world ++ [req])%list
    ∧ req_url req = "https://api.dehashed.com/v2/monitoring/create-task"
    ∧ req_json req = PyDict data
    ∧ ∃ parts,
        data = [("type", PyStr "email"); ("value", PyStr "a@example.com");
                ("channels", PyList (PyStr <$> parts))]
        ∧ parts ≠ []
        ∧ Forall (λ part, string_mem "," part = false) parts
        ∧ Some "email,webhook" = Some (String.concat "," parts).
Proof.
  apply (create_task_channels (λ _, None)
           (always (NoResponse "Connection refused"))
           {| c_api_key := Some "secret"; c_type := "email";
              c_value := "a@example.com"; c_channels := Some "email,webhook" |}
           "secret" empty_world).
  reflexivity.
Defined.

(** ** The command line: where the results go *)

Lemma output_results_given writable results out format :
  given (Some out) = true →
  output_results writable results (Some out) format =
    if csv_chosen format out
    then save_results_to_csv_io writable results out
    else save_results_to_file writable results out.
Proof.
  intros Hout. unfold output_results, csv_chosen. rewrite Hout.
  cbn [default from_option id].
  destruct (given format); cbn [negb]; [done |].
  destruct (endswith out ".csv").
  - by rewrite bool_decide_true.
  - by rewrite bool_decide_false.
Qed.

Lemma save_results_to_csv_filename d filename f rows :
  save_results_to_csv d filename = Written f rows → f = filename.
Proof.
  unfold save_results_to_csv. repeat case_match; try done. by intros [= <- _].
Qed.

Lemma save_results_to_csv_io_effects writable results out w :
  let w' := (save_results_to_csv_io writable results out w).2 in
  calls w' = calls w ∧ stderr w' = stderr w
  ∧ (files w' = files w
     ∨ ∃ rows d,
         writable out = true
         ∧ files w' = (files w ++ [(out, CsvFile rows)])%list
         ∧ results = PyDict d
         ∧ save_results_to_csv d out = Written out rows).
Proof.
  unfold save_results_to_csv_io, save_results_to_csv_dict.
  destruct results as [| | | |s|l|d]; try by simpl; auto.
  - destruct (occurs _ _); simpl; auto.
  - destruct (existsb _ _); simpl; auto.
  - destruct (save_results_to_csv d out) as [|f rows|] eqn:Hsave;
      [by simpl; auto | | by simpl; auto].
    apply save_results_to_csv_filename in Hsave as Hf. subst f.
    cbv [mbind IO_bind write_file print].
    destruct (writable out) eqn:Hw; simpl; [| by auto].
    split_and!; try done. right. by exists rows, d.
Qed.

Lemma save_results_to_file_effects writable results out w :
  let w' := (save_results_to_file writable results out w).2 in
  calls w' = calls w ∧ stderr w' = stderr w
  ∧ (files w' = files w
     ∨ writable out = true
       ∧ files w' =
           (files w ++ [(out, TextFile (json_dumps_indent 2 0 results))])%list).
Proof.
  unfold save_results_to_file. cbv [mbind IO_bind write_file print].
  destruct (writable out) eqn:Hw; simpl; split_and!; auto.
Qed.

(** X19: the output block of the search commands sends nothing.  Without
    [--output] it prints the results as indented JSON and writes no file.
    With [--output] it writes at most one file, under the name given: a CSV
    file only if the format is [csv], or no format is given and the name
    ends in [.csv]; a JSON file, holding the results as indented JSON, only
    if a format other than [csv] is given, or no format is given and the
    name does not end in [.csv].  So a format given wins over the name. *)
Theorem output_results_files writable results output format w :
  let w' := (output_results writable results output format w).2 in
  calls w' = calls w ∧ stderr w' = stderr w
  ∧ (given output = false →
       files w' = files w
       ∧ stdout w' = (stdout w ++ [Printed (json_dumps_indent 2 0 results)])%list)
  ∧ (files w' = files w
     ∨ ∃ out content,
         output = Some out ∧ writable out = true
         ∧ files w' = (files w ++ [(out, content)])%list
         ∧ match content with
           | CsvFile rows =>
               (format = Some "csv"
                ∨ (given format = false ∧ endswith out ".csv" = true))
               ∧ ∃ d, results = PyDict d
                      ∧ save_results_to_csv d out = Written out rows
           | TextFile content =>
               content = json_dumps_indent 2 0 results
               ∧ ((given format = true ∧ format ≠ Some "csv")
                  ∨ (given format = false ∧ endswith out ".csv" = false))
           end).
Proof.
  destruct (given output) eqn:Hout.
  - destruct output as [out|]; [| done].
    rewrite output_results_given by done.
    destruct (csv_chosen format out) eqn:Hcsv; cbv zeta.
    + destruct (save_results_to_csv_io_effects writable results out w)
        as (Hc & He & Hf).
      split_and!; [done | done | done |].
      destruct Hf as [?|(rows & d & Hw & Hfiles & -> & Hsave)]; [by left |].
      right. exists out, (CsvFile rows). split_and!; try done; [| by exists d].
      unfold csv_chosen in Hcsv. destruct (given format); [| by right].
      left. by apply bool_decide_eq_true_1 in Hcsv.
    + destruct (save_results_to_file_effects writable results out w)
        as (Hc & He & Hf).
      split_and!; [done | done | done |].
      destruct Hf as [?|(Hw & Hfiles)]; [by left |].
      right. exists out, (TextFile (json_dumps_indent 2 0 results)).
      split_and!; try done.
      unfold csv_chosen in Hcsv. destruct (given format); [| by right].
      left. split; [done |]. by apply bool_decide_eq_false_1 in Hcsv.
  - unfold output_results. rewrite Hout. simpl. auto.
Qed.

(** ** The command line: failures that are not reported as errors *)

Lemma make_request_Decoded session_post self endpoint data log response v :
  session_post (make_request_call self endpoint data) = Responded response →
  ¬ (400 ≤ status_code response < 600) →
  json response = Decoded v →
  _make_request session_post self endpoint data log =
    (Return v, (log ++ [make_request_call self endpoint data])%list).
Proof.
  intros Hpost Hs Hjson. unfold _make_request, make_request_try.
  rewrite Hpost. apply raise_for_status_None in Hs. by rewrite Hs, Hjson.
Qed.

Section search_command.

Variable environ : string → option string.
Variable session_post : request → reply.
Variable writable : string → bool.
Variables (args : search_args) (key : string) (w : world).
Variables (response : Response) (results : pyval) (out : string).

Hypothesis Hkey : resolve_key environ (s_api_key args) = Some key.

Hypothesis Hpost :
  session_post
    (make_request_call (new_client key) "/search"
       (Some (search_data (s_query args) (Some (s_page args))
                (Some (s_size args)) (Some (s_wildcard args))
                (Some (s_regex args)) (Some (s_dedupe args)))))
  = Responded response.

Hypothesis Hstatus : ¬ (400 ≤ status_code response < 600).
Hypothesis Hjson : json response = Decoded results.
Hypothesis Houtput : s_output args = Some out.
Hypothesis Hout : out ≠ EmptyString.

(** The search command, up to the output block. *)
Lemma cmd_search_eq :
  cmd_search environ session_post writable args w =
    let w1 :=
      World (calls w ++ [make_request_call (new_client key) "/search"
               (Some (search_data (s_query args) (Some (s_page args))
                        (Some (s_size args)) (Some (s_wildcard args))
                        (Some (s_regex args)) (Some (s_dedupe args))))])
            (stdout w) (stderr w) (files w) (S (opened w)) (closed w) in
    let out1 :=
      (if csv_chosen (s_format args) out
       then save_results_to_csv_io writable results out
       else save_results_to_file writable results out) w1 in
    (out1.1, World (calls out1.2) (stdout out1.2) (stderr out1.2)
                   (files out1.2) (opened out1.2) (S (closed out1.2))).
Proof.
  unfold cmd_search. rewrite with_client_eq, Hkey.
  cbv [mbind IO_bind call search]. cbn [calls].
  rewrite (make_request_Decoded _ _ _ _ _ response results) by done.
  rewrite Houtput, output_results_given; [done |].
  simpl. by rewrite bool_decide_false.
Qed.

(** X20: when the search is answered by entries of which one is no object
    and the results are to go to a CSV file, the export fails with
    [AttributeError], which [main] takes for a missing command function: the
    run prints the usage text, not an error line, and ends with exit status
    1; the request was sent, no file is written, and the session is
    closed. *)
Theorem main_search_bad_entry d l v :
  results = PyDict d →
  dict_lookup "entries" d = Some (PyList l) →
  v ∈ l → (∀ e, v ≠ PyDict e) →
  csv_chosen (s_format args) out = true →
  ∃ req,
    main environ session_post writable (Search args) w =
      (Exit 1,
       World (calls w ++ [req]) (stdout w ++ [Help]) (stderr w) (files w)
             (S (opened w)) (S (closed w))).
Proof.
  intros Hres Hentries Hin Hv Hcsv. unfold main, run_func.
  rewrite cmd_search_eq, Hcsv, Hres. cbv zeta.
  unfold save_results_to_csv_io, save_results_to_csv_dict, save_results_to_csv.
  rewrite Hentries, (truthy_list_elem l v Hin). cbn [negb iter_entries].
  rewrite (as_dicts_non_dict l v) by done.
  simpl. by eexists.
Qed.

(** X21: when the results are to go to a JSON file that cannot be opened
    for writing, the [OSError] is taken by no handler of [main]: the run
    ends with that exception, after the request was sent; nothing is printed
    or written, and the session is closed. *)
Theorem main_search_unwritable :
  csv_chosen (s_format args) out = false →
  writable out = false →
  ∃ req,
    main environ session_post writable (Search args) w =
      (Uncaught (OSError out),
       World (calls w ++ [req]) (stdout w) (stderr w) (files w)
             (S (opened w)) (S (closed w))).
Proof.
  intros Hcsv Hw. unfold main, run_func.
  rewrite cmd_search_eq, Hcsv. cbv zeta.
  unfold save_results_to_file. cbv [mbind IO_bind write_file].
  rewrite Hw. simpl. by eexists.
Qed.

End search_command.

Lemma main_search_bad_entry_witness :
  ∃ req,
    main (λ _, None) (always (Responded broken_entries_response)) (λ _, true)
      (Search (sample_search (Some "out.csv") None)) empty_world =
      (Exit 1,
       World (calls empty_world ++ [req]) (stdout empty_world ++ [Help])
             (stderr empty_world) (files empty_world)
             (S (opened empty_world)) (S (closed empty_world))).
Proof.
  apply (main_search_bad_entry (λ _, None)
           (always (Responded broken_entries_response)) (λ _, true)
           (sample_search (Some "out.csv") None) "secret" empty_world
           broken_entries_response
           (PyDict [("entries", PyList [PyDict [("id", PyStr "1")];
                                        PyStr "oops"])])
           "out.csv")
    with (d := [("entries", PyList [PyDict [("id", PyStr "1")]; PyStr "oops"])])
         (l := [PyDict [("id", PyStr "1")]; PyStr "oops"])
         (v := PyStr "oops").
  - reflexivity.
  - reflexivity.
  - simpl. lia.
  - reflexivity.
  - reflexivity.
  - discriminate.
  - reflexivity.
  - reflexivity.
  - apply list_elem_of_In. right. left. reflexivity.
  - intros e. discriminate.
  - reflexivity.
Defined.

Lemma main_search_unwritable_witness :
  ∃ req,
    main (λ _, None) (always (Responded balance_response)) (λ _, false)
      (Search (sample_search (Some "out.csv") (Some "json"))) empty_world =
      (Uncaught (OSError "out.csv"),
       World (calls empty_world ++ [req]) (stdout empty_world)
             (stderr empty_world) (files empty_world)
             (S (opened empty_world)) (S (closed empty_world))).
Proof.
  apply (main_search_unwritable (λ _, None)
           (always (Responded balance_response)) (λ _, false)
           (sample_search (Some "out.csv") (Some "json")) "secret" empty_world
           balance_response
           (PyDict [("balance", PyInt 42); ("entries", PyList [])])
           "out.csv").
  - reflexivity.
  - reflexivity.
  - simpl. lia.
  - reflexivity.
  - reflexivity.
  - discriminate.
  - reflexivity.
  - reflexivity.
Defined.

(** ** The command line: WHOIS *)

Lemma calls_bind_call {A} (m : M A) (k : A → IO unit) w log :
  (m (calls w)).2 = log →
  (∀ a w', calls (k a w').2 = calls w') →
  calls ((call m ≫= k) w).2 = log.
Proof.
  intros Hm Hk. cbv [mbind IO_bind call].
  destruct (m (calls w)) as [[a|e] log']; simpl in *; subst; [| done].
  by rewrite Hk.
Qed.

Lemma calls_whois_finish writable output (results : pyval) w :
  calls ((if given output
          then save_results_to_file writable results (default EmptyString output)
          else pretty_print_results results) w).2 = calls w.
Proof.
  destruct (given output); [| done].
  by destruct (save_results_to_file_effects writable results
                 (default EmptyString output) w) as [? _].
Qed.

(** X22: with a key at hand, the WHOIS command sends one request to
    [/whois/search].  For the types lookup, history, ip, mx, ns and
    subdomain the body is the search type of the method and, under [domain],
    the domain of the command line, which is [null] when no domain is given.
    For the type reverse the body is the search type [reverse-whois] and
    those of name, organization and email that are given and not empty: the
    domain is not sent, nor [include] or [exclude].  For any other type
    nothing is sent or written, and one line names the unknown type.  On a
    domain that is given, the call is the call of the method of the
    client. *)
Theorem cmd_whois_request environ session_post writable args key w :
  resolve_key environ (w_api_key args) = Some key →
  let w' := (cmd_whois environ session_post writable args w).2 in
  let sends payload :=
    calls w' = (calls w ++ [make_request_call (new_client key) "/whois/search"
                              (Some payload)])%list in
  let with_domain search_type :=
    sends [("search_type", PyStr search_type);
           ("domain", from_option PyStr PyNone (w_domain args))] in
  (w_type args = "lookup" → with_domain "whois")
  ∧ (w_type args = "history" → with_domain "whois-history")
  ∧ (w_type args = "ip" → with_domain "reverse-ip")
  ∧ (w_type args = "mx" → with_domain "reverse-mx")
  ∧ (w_type args = "ns" → with_domain "reverse-ns")
  ∧ (w_type args = "subdomain" → with_domain "subdomain-scan")
  ∧ (w_type args = "reverse" →
       sends ([("search_type", PyStr "reverse-whois")]
              ++ item_if_given PyStr "name" (w_name args)
              ++ item_if_given PyStr "organization" (w_organization args)
              ++ item_if_given PyStr "email" (w_email args))%list)
  ∧ (w_type args ∉ whois_types →
       calls w' = calls w ∧ files w' = files w
       ∧ stdout w' =
           (stdout w ++ [Printed ("Unknown WHOIS type: " +:+ w_type args)])%list)
  ∧ ∀ client domain,
      whois_call session_post client "whois" (Some domain)
        = whois_search session_post client domain
      ∧ whois_call session_post client "whois-history" (Some domain)
        = whois_history session_post client domain
      ∧ whois_call session_post client "reverse-ip" (Some domain)
        = whois_ip session_post client domain
      ∧ whois_call session_post client "reverse-mx" (Some domain)
        = whois_mx session_post client domain
      ∧ whois_call session_post client "reverse-ns" (Some domain)
        = whois_ns session_post client domain
      ∧ whois_call session_post client "subdomain-scan" (Some domain)
        = whois_subdomain_scan session_post client domain.
Proof.
  intros Hkey. cbv zeta. unfold cmd_whois. rewrite with_client_eq, Hkey.
  cbn [snd fst calls].
  assert (∀ search_type,
    calls ((call (whois_call session_post (new_client key) search_type
                    (w_domain args))
            ≫= (λ results,
                  if given (w_output args)
                  then save_results_to_file writable results
                         (default EmptyString (w_output args))
                  else pretty_print_results results))
           (World (calls w) (stdout w) (stderr w) (files w)
                  (S (opened w)) (closed w))).2
    = (calls w ++ [make_request_call (new_client key) "/whois/search"
                    (Some [("search_type", PyStr search_type);
                           ("domain", from_option PyStr PyNone (w_domain args))])])%list)
    as Hdomain.
  { intros search_type. apply calls_bind_call.
    - apply make_request_log.
    - intros. apply calls_whois_finish. }
  split_and!; try (intros ->; rewrite ?decide_False by done;
                   rewrite decide_True by done; apply Hdomain).
  - intros ->. rewrite ?decide_False by done. rewrite decide_True by done.
    erewrite calls_bind_call;
      [| apply make_request_log | intros; apply calls_whois_finish].
    do 3 f_equal. unfold whois_reverse_data.
    destruct (w_name args) as [[|? ?]|], (w_organization args) as [[|? ?]|],
             (w_email args) as [[|? ?]|]; reflexivity.
  - intros Hunknown. unfold whois_types in Hunknown.
    rewrite !not_elem_of_cons in Hunknown.
    destruct Hunknown as (? & ? & ? & ? & ? & ? & ? & _).
    by rewrite !decide_False by done.
  - done.
Qed.

Lemma cmd_whois_request_witness :
  let args := {| w_api_key := Some "secret"; w_type := "lookup";
                 w_domain := None; w_name := None; w_organization := None;
                 w_email := None; w_output := None |} in
  calls (cmd_whois (λ _, None) (always (Responded balance_response))
           (λ _, true) args empty_world).2
  = (calls empty_world
     ++ [make_request_call (new_client "secret") "/whois/search"
           (Some [("search_type", PyStr "whois"); ("domain", PyNone)])])%list.
Proof.
  cbv zeta.
  apply (cmd_whois_request (λ _, None) (always (Responded balance_response))
           (λ _, true)
           {| w_api_key := Some "secret"; w_type := "lookup";
              w_domain := None; w_name := None; w_organization := None;
              w_email := None; w_output := None |} "secret" empty_world).
  - reflexivity.
  - reflexivity.
Defined.

(** ** The export: when the file is opened *)

Lemma app_singleton_neq {A} (l : list A) x : l ≠ (l ++ [x])%list.
Proof.
  intros Heq. apply (f_equal length) in Heq.
  rewrite length_app in Heq. simpl in Heq. lia.
Qed.

(** X2: the export opens its file exactly when the value under [entries] is
    a non-empty list whose elements are all dicts.  When the file can be
    opened it is written, with the header and the rows (all text here has
    code points below 256, which the encoding of the file takes); when it
    cannot, the export ends with the [OSError] of [open].  In every other
    case no file is written. *)
Theorem export_opens_file_iff writable results filename w :
  let out := save_results_to_csv_io writable (PyDict results) filename w in
  let listed :=
    ∃ entries : list dict,
      dict_lookup "entries" results = Some (PyList (PyDict <$> entries))
      ∧ entries ≠ [] in
  ((∃ rows, files out.2 = (files w ++ [(filename, CsvFile rows)])%list
            ∧ save_results_to_csv results filename = Written filename rows)
   ↔ listed ∧ writable filename = true)
  ∧ (out.1 = Thrown (OSError filename) ↔ listed ∧ writable filename = false)
  ∧ (¬ (listed ∧ writable filename = true) → files out.2 = files w).
Proof.
  cbv zeta. rewrite <-(save_results_to_csv_Written_iff results filename).
  unfold save_results_to_csv_io, save_results_to_csv_dict.
  destruct (save_results_to_csv results filename) as [|f rows|e] eqn:Hsave.
  - simpl. split_and!; [| | done].
    + split; [by intros (rows & _ & ?) | by intros [[rows ?] _]].
    + split; [done | by intros [[rows ?] _]].
  - apply save_results_to_csv_filename in Hsave as Hf. subst f.
    cbv [mbind IO_bind write_file print].
    destruct (writable filename) eqn:Hw; simpl; split_and!.
    + split; [by eauto | intros _; by eauto].
    + split; [done | by intros [_ ?]].
    + intros []. by eauto.
    + split; [| by intros [_ ?]].
      intros (rows' & Hfiles & _). by apply app_singleton_neq in Hfiles.
    + split; [by eauto | done].
    + done.
  - simpl. split_and!; [| | done].
    + split; [by intros (rows & _ & ?) | by intros [[rows ?] _]].
    + split; [done | by intros [[rows ?] _]].
Qed.

(** The decoder's own exception passes through the client and through
    [main], while the balance probe takes it for an unknown balance. *)
Example nested_response_samples :
  (_make_request (always (Responded nested_response)) sample_client "/search"
     (Some [("query", PyStr "email:")]) []).1 = Raise RecursionError
  ∧ (main (λ _, None) (always (Responded nested_response)) (λ _, true)
       (Search (sample_search None None)) empty_world).1
    = Uncaught (PyExn RecursionError)
  ∧ (get_balance (always (Responded nested_response)) sample_client []).1
    = Return PyNone.
Proof. split_and!; by vm_compute. Qed.
